(** * Inbound message dispatch of a payment-channel node

    A shallow embedding of [raiden/message_handler.py]: the class
    [MessageHandler], its dispatcher [on_message] and the nine
    [handle_message_*] functions, followed by the properties of the
    dispatcher that the specification states.

    Python objects are modelled the way the handler uses them:
    - a message is an object with a class ([type_of]), the attributes every
      message has ([cmdid], [sender]) and the attributes of its layout;
      reading an attribute the object lacks raises [AttributeError];
    - the effects of a dispatch (calls made through [self], the registry
      query, log records, state changes handed to the node, calls of the
      mediation entry points) are appended to a chronological trace;
    - an exception is an outcome of the computation, next to a normal
      return;
    - the functions imported from other modules of the node are operations
      of the class [Collaborators]. *)

From Stdlib Require Import List String ZArith Bool.
From Stdlib.Strings Require Import Byte.
Import ListNotations.
Local Open Scope string_scope.
Local Open Scope list_scope.

(** ** Byte strings *)

Definition bytes := list byte.

Fixpoint bytes_eqb (a b : bytes) : bool :=
  match a, b with
  | [], [] => true
  | x :: a', y :: b' => Byte.eqb x y && bytes_eqb a' b'
  | _, _ => false
  end.

Definition Address := bytes.
Definition Secret := bytes.
Definition SecretHash := bytes.
Definition PrivateKey := bytes.
Definition TokenNetworkAddress := bytes.

(** ** Classes of messages

    The nine classes imported from [raiden.messages], and any other class
    of message, known by its name. *)

Inductive PyClass : Type :=
| SecretRequest
| RevealSecret
| Unlock
| LockExpired
| RefundTransfer
| LockedTransfer
| WithdrawRequest
| Delivered
| Processed
| OtherMessage (name : string).

Definition PyClass_eq_dec (a b : PyClass) : {a = b} + {a <> b}.
Proof. decide equality. apply string_dec. Defined.

(** [type(a) == b] *)
Definition type_eq (a b : PyClass) : bool :=
  if PyClass_eq_dec a b then true else false.

(** ** Types that belong to other modules of the node *)

Class Domain : Type := {
  ChainState : Type;
  Config : Type;
  Route : Type;
  RouteMetadata : Type;
  Envelope : Type;
  SecretRegistry : Type;
  WriteAheadLog : Type;
  Entropy : Type
}.

Inductive Exception : Type :=
| TypeError
| AttributeError
| AssertionError.

Inductive Outcome (A : Type) : Type :=
| Returned (a : A)
| Raised (e : Exception).

Arguments Returned {A} a.
Arguments Raised {A} e.

Inductive LogLevel : Type := WARNING | ERROR.

Inductive LogArg : Type :=
| LInt (z : Z)
| LText (s : string).

Section Model.

Context {D : Domain}.

(** ** Protocol messages

    Modelled from the spec: the classes of [raiden.messages] with the
    attributes its data model lists for each. Every message has a [cmdid]
    and a [sender]. *)

Record Lock : Type := {
  lock_amount : Z;
  lock_secrethash : SecretHash
}.

Inductive MessageBody : Type :=
| SecretRequestBody (payment_identifier amount expiration : Z) (secrethash : SecretHash)
| RevealSecretBody (secret : Secret)
| UnlockBody (message_identifier : Z) (secret : Secret) (envelope : Envelope)
| LockExpiredBody (message_identifier : Z) (secrethash : SecretHash) (envelope : Envelope)
| RefundTransferBody (token_network_address : TokenNetworkAddress) (lock : Lock)
    (target : Address) (envelope : Envelope)
| LockedTransferBody (target : Address) (lock : Lock) (envelope : Envelope)
| WithdrawRequestBody (token_network_identifier : TokenNetworkAddress)
    (channel_identifier amount : Z)
| DeliveredBody (delivered_message_identifier : Z)
| ProcessedBody (message_identifier : Z)
| OtherBody.

Record Message : Type := {
  type_of : PyClass;
  cmdid : Z;
  sender : Address;
  body : MessageBody
}.

(** Attribute reads, [None] when the object has no such attribute. *)

Definition payment_identifier (message : Message) : option Z :=
  match body message with
  | SecretRequestBody p _ _ _ => Some p
  | _ => None
  end.

Definition amount (message : Message) : option Z :=
  match body message with
  | SecretRequestBody _ a _ _ => Some a
  | WithdrawRequestBody _ _ a => Some a
  | _ => None
  end.

Definition expiration (message : Message) : option Z :=
  match body message with
  | SecretRequestBody _ _ e _ => Some e
  | _ => None
  end.

Definition secrethash (message : Message) : option SecretHash :=
  match body message with
  | SecretRequestBody _ _ _ h => Some h
  | LockExpiredBody _ h _ => Some h
  | _ => None
  end.

Definition secret (message : Message) : option Secret :=
  match body message with
  | RevealSecretBody s => Some s
  | UnlockBody _ s _ => Some s
  | _ => None
  end.

Definition message_identifier (message : Message) : option Z :=
  match body message with
  | UnlockBody i _ _ => Some i
  | LockExpiredBody i _ _ => Some i
  | ProcessedBody i => Some i
  | _ => None
  end.

Definition delivered_message_identifier (message : Message) : option Z :=
  match body message with
  | DeliveredBody i => Some i
  | _ => None
  end.

Definition token_network_address (message : Message) : option TokenNetworkAddress :=
  match body message with
  | RefundTransferBody t _ _ _ => Some t
  | _ => None
  end.

Definition token_network_identifier (message : Message) : option TokenNetworkAddress :=
  match body message with
  | WithdrawRequestBody t _ _ => Some t
  | _ => None
  end.

Definition channel_identifier (message : Message) : option Z :=
  match body message with
  | WithdrawRequestBody _ c _ => Some c
  | _ => None
  end.

Definition lock (message : Message) : option Lock :=
  match body message with
  | RefundTransferBody _ l _ _ => Some l
  | LockedTransferBody _ l _ => Some l
  | _ => None
  end.

Definition target (message : Message) : option Address :=
  match body message with
  | RefundTransferBody _ _ t _ => Some t
  | LockedTransferBody t _ _ => Some t
  | _ => None
  end.

(** ** Records built from a message by other modules *)

(** Modelled from the spec: the balance proof of [raiden.transfer.state],
    which is derived from the envelope of a message and has a sender of its
    own. *)
Record BalanceProof : Type := {
  balance_proof_envelope : Envelope;
  balance_proof_sender : Address
}.

(** Modelled from the spec: the locally signed form of a forwarded
    transfer, rebuilt from a message: its lock, target and balance proof. *)
Record LockedTransferSigned : Type := {
  transfer_lock : Lock;
  transfer_target : Address;
  transfer_balance_proof : BalanceProof
}.

(** ** State changes *)

Inductive StateChange : Type :=
| ReceiveSecretRequest (payment_identifier amount expiration : Z)
    (secrethash : SecretHash) (sender : Address)
| ReceiveSecretReveal (secret : Secret) (sender : Address)
| ReceiveUnlock (message_identifier : Z) (secret : Secret)
    (balance_proof : BalanceProof) (sender : Address)
| ReceiveLockExpired (sender : Address) (balance_proof : BalanceProof)
    (secrethash : SecretHash) (message_identifier : Z)
| ReceiveTransferRefund (transfer : LockedTransferSigned)
    (balance_proof : BalanceProof) (sender : Address) (routes : list Route)
| ReceiveTransferRefundCancelRoute (routes : list Route)
    (transfer : LockedTransferSigned) (balance_proof : BalanceProof)
    (sender : Address) (secret : Secret)
| ReceiveWithdrawRequest (token_network_identifier : TokenNetworkAddress)
    (channel_identifier amount : Z) (sender : Address)
| ReceiveDelivered (sender : Address) (message_identifier : Z)
| ReceiveProcessed (sender : Address) (message_identifier : Z).

(** ** The node *)

Record RaidenService : Type := {
  address : Address;
  config : Config;
  privkey : PrivateKey;
  default_one_to_n_address : Address;
  default_secret_registry : SecretRegistry;
  wal : WriteAheadLog
}.

(** Keyword arguments of [get_best_routes]. *)
Record RouteRequest : Type := {
  rr_chain_state : ChainState;
  rr_token_network_address : TokenNetworkAddress;
  rr_one_to_n_address : Address;
  rr_from_address : Address;
  rr_to_address : Address;
  rr_amount : Z;
  rr_previous_address : Address;
  rr_config : Config;
  rr_privkey : PrivateKey
}.

(** ** Observable effects, in the order they happen *)

Inductive Event : Type :=
| Called (method : string)
| IsSecretRegistered (registry : SecretRegistry) (secrethash : SecretHash)
    (block_identifier : string)
| Log (level : LogLevel) (event : string) (args : list LogArg)
| HandleAndTrackStateChange (state_change : StateChange)
| TargetMediatedTransfer (message : Message)
| MediateMediatedTransfer (message : Message).

Record World : Type := {
  entropy : Entropy;
  trace : list Event
}.

(** The world after the events [evs] have happened. *)
Definition after (w : World) (evs : list Event) : World :=
  {| entropy := entropy w; trace := trace w ++ evs |}.

(** ** Computations: state passing with exceptions *)

Definition M (A : Type) : Type := World -> Outcome A * World.

Definition ret {A} (a : A) : M A := fun w => (Returned a, w).

Definition bind {A B} (c : M A) (k : A -> M B) : M B :=
  fun w =>
    match c w with
    | (Returned a, w') => k a w'
    | (Raised e, w') => (Raised e, w')
    end.

Definition raise {A} (e : Exception) : M A := fun w => (Raised e, w).

Definition emit (ev : Event) : M unit := fun w => (Returned tt, after w [ev]).

End Model.

Declare Scope py_scope.
Delimit Scope py_scope with py.
Notation "x <- c ;; k" := (bind c (fun x => k))
  (at level 100, c at next level, right associativity) : py_scope.
Notation "c ;; k" := (bind c (fun _ => k))
  (at level 100, right associativity) : py_scope.

Local Open Scope py_scope.

(** ** Functions and constants imported from other modules

    [ABSENT_SECRET] is [raiden.constants.ABSENT_SECRET]; [superclasses c]
    lists the proper ancestors of class [c] in [raiden.messages];
    [random_secret] draws from the node's source of randomness;
    [is_secret_registered] answers for the chain as the registry sees it
    at the given block. *)

Class Collaborators {D : Domain} : Type := {
  ABSENT_SECRET : Secret;
  superclasses : PyClass -> list PyClass;
  balanceproof_from_envelope : Message -> BalanceProof;
  lockedtransfersigned_from_message : Message -> LockedTransferSigned;
  state_from_raiden : RaidenService -> ChainState;
  get_best_routes : RouteRequest -> list Route * RouteMetadata;
  get_transfer_role : ChainState -> SecretHash -> string;
  get_transfer_secret : ChainState -> SecretHash -> Secret;
  random_secret_from : Entropy -> Secret * Entropy;
  is_secret_registered : SecretRegistry -> SecretHash -> string -> bool;
  pex : bytes -> string
}.

Section Handler.

Context {D : Domain} {C : Collaborators}.

(** [isinstance(message, c)] *)
Definition isinstance (message : Message) (c : PyClass) : bool :=
  type_eq (type_of message) c
  || existsb (fun b => type_eq b c) (superclasses (type_of message)).

(** [assert b, MYPY_ANNOTATION] *)
Definition assert (b : bool) : M unit :=
  if b then ret tt else raise AssertionError.

(** Reading an attribute of an object. *)
Definition attr {A} (a : option A) : M A :=
  match a with
  | Some v => ret v
  | None => raise AttributeError
  end.

(** [random_secret()] *)
Definition random_secret : M Secret :=
  fun w =>
    let (secret, rest) := random_secret_from (entropy w) in
    (Returned secret, {| entropy := rest; trace := trace w |}).

(** [raiden.default_secret_registry.is_secret_registered(secrethash=...,
    block_identifier=...)] *)
Definition query_is_secret_registered (registry : SecretRegistry)
    (secrethash : SecretHash) (block_identifier : string) : M bool :=
  emit (IsSecretRegistered registry secrethash block_identifier) ;;
  ret (is_secret_registered registry secrethash block_identifier).

Definition log_error (event : string) (args : list LogArg) : M unit :=
  emit (Log ERROR event args).

Definition log_warning (event : string) (args : list LogArg) : M unit :=
  emit (Log WARNING event args).

Definition handle_and_track_state_change (raiden : RaidenService)
    (state_change : StateChange) : M unit :=
  emit (HandleAndTrackStateChange state_change).

Definition target_mediated_transfer (raiden : RaidenService)
    (message : Message) : M unit :=
  emit (TargetMediatedTransfer message).

Definition mediate_mediated_transfer (raiden : RaidenService)
    (message : Message) : M unit :=
  emit (MediateMediatedTransfer message).

(** ** Functions of a class and calls through an instance

    A function of the class body takes its positional arguments as a list
    of values. Looked up on an instance, a function wrapped in
    [staticmethod] is called with the arguments of the call; a function
    without the decorator is a bound method and receives the instance as
    an additional first argument. *)

Inductive PyValue : Type :=
| VSelf
| VRaiden (raiden : RaidenService)
| VMessage (message : Message).

(** [def f(raiden, message): ...]: two positional parameters. Any other
    number of arguments is a [TypeError]; a first argument that is not the
    node, or a second that is not a message, lacks the attributes the
    bodies below read. *)
Definition def2 (f : RaidenService -> Message -> M unit)
    (args : list PyValue) : M unit :=
  match args with
  | [VRaiden raiden; VMessage message] => f raiden message
  | [_; _] => raise AttributeError
  | _ => raise TypeError
  end.

Record Method : Type := {
  method_name : string;
  is_staticmethod : bool;
  method_code : list PyValue -> M unit
}.

Definition staticmethod (name : string) (code : list PyValue -> M unit) : Method :=
  {| method_name := name; is_staticmethod := true; method_code := code |}.

Definition function (name : string) (code : list PyValue -> M unit) : Method :=
  {| method_name := name; is_staticmethod := false; method_code := code |}.

(** [self.m(args)] *)
Definition self_call (m : Method) (args : list PyValue) : M unit :=
  emit (Called (method_name m)) ;;
  if is_staticmethod m then method_code m args
  else method_code m (VSelf :: args).

(** ** The handlers of [MessageHandler] *)

Definition handle_message_withdrawrequest : Method :=
  function "handle_message_withdrawrequest" (def2 (fun raiden message =>
    token_network_identifier <- attr (token_network_identifier message) ;;
    channel_identifier <- attr (channel_identifier message) ;;
    amount <- attr (amount message) ;;
    let secret_request :=
      ReceiveWithdrawRequest token_network_identifier channel_identifier
        amount (sender message) in
    handle_and_track_state_change raiden secret_request)).

Definition handle_message_secretrequest : Method :=
  staticmethod "handle_message_secretrequest" (def2 (fun raiden message =>
    payment_identifier <- attr (payment_identifier message) ;;
    amount <- attr (amount message) ;;
    expiration <- attr (expiration message) ;;
    secrethash <- attr (secrethash message) ;;
    let secret_request :=
      ReceiveSecretRequest payment_identifier amount expiration secrethash
        (sender message) in
    handle_and_track_state_change raiden secret_request)).

Definition handle_message_revealsecret : Method :=
  staticmethod "handle_message_revealsecret" (def2 (fun raiden message =>
    secret <- attr (secret message) ;;
    let state_change := ReceiveSecretReveal secret (sender message) in
    handle_and_track_state_change raiden state_change)).

Definition handle_message_unlock : Method :=
  staticmethod "handle_message_unlock" (def2 (fun raiden message =>
    let balance_proof := balanceproof_from_envelope message in
    message_identifier <- attr (message_identifier message) ;;
    secret <- attr (secret message) ;;
    let state_change :=
      ReceiveUnlock message_identifier secret balance_proof
        (balance_proof_sender balance_proof) in
    handle_and_track_state_change raiden state_change)).

Definition handle_message_lockexpired : Method :=
  staticmethod "handle_message_lockexpired" (def2 (fun raiden message =>
    let balance_proof := balanceproof_from_envelope message in
    secrethash <- attr (secrethash message) ;;
    message_identifier <- attr (message_identifier message) ;;
    let state_change :=
      ReceiveLockExpired (balance_proof_sender balance_proof) balance_proof
        secrethash message_identifier in
    handle_and_track_state_change raiden state_change)).

Definition handle_message_refundtransfer : Method :=
  staticmethod "handle_message_refundtransfer" (def2 (fun raiden message =>
    token_network_address <- attr (token_network_address message) ;;
    let from_transfer := lockedtransfersigned_from_message message in
    let chain_state := state_from_raiden raiden in
    let (routes, _) := get_best_routes
      {| rr_chain_state := chain_state;
         rr_token_network_address := token_network_address;
         rr_one_to_n_address := default_one_to_n_address raiden;
         rr_from_address := address raiden;
         rr_to_address := transfer_target from_transfer;
         rr_amount := lock_amount (transfer_lock from_transfer);
         rr_previous_address := sender message;
         rr_config := config raiden;
         rr_privkey := privkey raiden |} in
    let role :=
      get_transfer_role chain_state (lock_secrethash (transfer_lock from_transfer)) in
    state_change <-
      (if String.eqb role "initiator" then
         let old_secret :=
           get_transfer_secret chain_state
             (lock_secrethash (transfer_lock from_transfer)) in
         let routes := if bytes_eqb old_secret ABSENT_SECRET then [] else routes in
         secret <- random_secret ;;
         ret (ReceiveTransferRefundCancelRoute routes from_transfer
                (transfer_balance_proof from_transfer)
                (balance_proof_sender (transfer_balance_proof from_transfer))
                secret)
       else
         ret (ReceiveTransferRefund from_transfer
                (transfer_balance_proof from_transfer)
                (balance_proof_sender (transfer_balance_proof from_transfer))
                routes)) ;;
    handle_and_track_state_change raiden state_change)).

Definition handle_message_lockedtransfer : Method :=
  staticmethod "handle_message_lockedtransfer" (def2 (fun raiden message =>
    lock <- attr (lock message) ;;
    let secrethash := lock_secrethash lock in
    registered <- query_is_secret_registered (default_secret_registry raiden)
                    secrethash "latest" ;;
    if registered then
      log_warning
        "Ignoring received locked transfer with secrethash {} since it is already registered in the secret registry"
        [LText (pex secrethash)]
    else
      target <- attr (target message) ;;
      if bytes_eqb target (address raiden) then
        target_mediated_transfer raiden message
      else
        mediate_mediated_transfer raiden message)).

Definition handle_message_processed : Method :=
  staticmethod "handle_message_processed" (def2 (fun raiden message =>
    message_identifier <- attr (message_identifier message) ;;
    let processed := ReceiveProcessed (sender message) message_identifier in
    handle_and_track_state_change raiden processed)).

Definition handle_message_delivered : Method :=
  staticmethod "handle_message_delivered" (def2 (fun raiden message =>
    delivered_message_identifier <- attr (delivered_message_identifier message) ;;
    let delivered := ReceiveDelivered (sender message) delivered_message_identifier in
    handle_and_track_state_change raiden delivered)).

(** ** The dispatcher *)

Definition on_message (raiden : RaidenService) (message : Message) : M unit :=
  if type_eq (type_of message) SecretRequest then
    assert (isinstance message SecretRequest) ;;
    self_call handle_message_secretrequest [VRaiden raiden; VMessage message]
  else if type_eq (type_of message) RevealSecret then
    assert (isinstance message RevealSecret) ;;
    self_call handle_message_revealsecret [VRaiden raiden; VMessage message]
  else if type_eq (type_of message) Unlock then
    assert (isinstance message Unlock) ;;
    self_call handle_message_unlock [VRaiden raiden; VMessage message]
  else if type_eq (type_of message) LockExpired then
    assert (isinstance message LockExpired) ;;
    self_call handle_message_lockexpired [VRaiden raiden; VMessage message]
  else if type_eq (type_of message) RefundTransfer then
    assert (isinstance message RefundTransfer) ;;
    self_call handle_message_refundtransfer [VRaiden raiden; VMessage message]
  else if type_eq (type_of message) LockedTransfer then
    assert (isinstance message LockedTransfer) ;;
    self_call handle_message_lockedtransfer [VRaiden raiden; VMessage message]
  else if type_eq (type_of message) WithdrawRequest then
    assert (isinstance message WithdrawRequest) ;;
    self_call handle_message_withdrawrequest [VRaiden raiden; VMessage message]
  else if type_eq (type_of message) Delivered then
    assert (isinstance message Delivered) ;;
    self_call handle_message_delivered [VRaiden raiden; VMessage message]
  else if type_eq (type_of message) Processed then
    assert (isinstance message Processed) ;;
    self_call handle_message_processed [VRaiden raiden; VMessage message]
  else
    log_error "Unknown message cmdid {}" [LInt (cmdid message)].

End Handler.

(** ** What a run leaves in the trace *)

Section Observations.

Context {D : Domain} {C : Collaborators}.

(** The events a computation started in [w] added to reach [w']. *)
Definition new_events (w w' : World) : list Event :=
  skipn (List.length (trace w)) (trace w').

Definition state_changes (evs : list Event) : list StateChange :=
  flat_map (fun ev =>
    match ev with
    | HandleAndTrackStateChange state_change => [state_change]
    | _ => []
    end) evs.

Definition entry_point_calls (evs : list Event) : list Event :=
  filter (fun ev =>
    match ev with
    | TargetMediatedTransfer _ | MediateMediatedTransfer _ => true
    | _ => false
    end) evs.

Definition calls (evs : list Event) : list string :=
  flat_map (fun ev =>
    match ev with
    | Called method => [method]
    | _ => []
    end) evs.

(** The world after one draw from the source of randomness and the
    events [evs]. *)
Definition after_draw (w : World) (evs : list Event) : World :=
  {| entropy := snd (random_secret_from (entropy w)); trace := trace w ++ evs |}.

(** The values [handle_message_refundtransfer] computes from its
    arguments before it chooses the state change. *)

Definition refunded_transfer (message : Message) : LockedTransferSigned :=
  lockedtransfersigned_from_message message.

Definition refund_secrethash (message : Message) : SecretHash :=
  lock_secrethash (transfer_lock (refunded_transfer message)).

Definition refund_role (raiden : RaidenService) (message : Message) : string :=
  get_transfer_role (state_from_raiden raiden) (refund_secrethash message).

Definition refund_old_secret (raiden : RaidenService) (message : Message) : Secret :=
  get_transfer_secret (state_from_raiden raiden) (refund_secrethash message).

Definition refund_routes (raiden : RaidenService) (message : Message)
    (token_network_address : TokenNetworkAddress) : list Route :=
  fst (get_best_routes
    {| rr_chain_state := state_from_raiden raiden;
       rr_token_network_address := token_network_address;
       rr_one_to_n_address := default_one_to_n_address raiden;
       rr_from_address := address raiden;
       rr_to_address := transfer_target (refunded_transfer message);
       rr_amount := lock_amount (transfer_lock (refunded_transfer message));
       rr_previous_address := sender message;
       rr_config := config raiden;
       rr_privkey := privkey raiden |}).

(** The [ReceiveTransferRefundCancelRoute] built from the refunded
    transfer with the given routes and secret. *)
Definition cancel_route (message : Message) (routes : list Route)
    (secret : Secret) : StateChange :=
  ReceiveTransferRefundCancelRoute routes (refunded_transfer message)
    (transfer_balance_proof (refunded_transfer message))
    (balance_proof_sender (transfer_balance_proof (refunded_transfer message)))
    secret.

(** The record logged when a locked transfer is dropped. *)
Definition replay_warning (secrethash : SecretHash) : Event :=
  Log WARNING
    "Ignoring received locked transfer with secrethash {} since it is already registered in the secret registry"
    [LText (pex secrethash)].

(** A computation that calls no method through [self]. *)
Definition quiet {A : Type} (c : M A) : Prop :=
  forall w, exists evs,
    trace (snd (c w)) = trace w ++ evs /\ calls evs = [].

(** The branches of [on_message], read as a table: each class the
    dispatcher tests for, with the handler called in that branch. *)
Definition handlers : list (PyClass * Method) :=
  [ (SecretRequest, handle_message_secretrequest);
    (RevealSecret, handle_message_revealsecret);
    (Unlock, handle_message_unlock);
    (LockExpired, handle_message_lockexpired);
    (RefundTransfer, handle_message_refundtransfer);
    (LockedTransfer, handle_message_lockedtransfer);
    (WithdrawRequest, handle_message_withdrawrequest);
    (Delivered, handle_message_delivered);
    (Processed, handle_message_processed) ].

(** The same collaborators, except that the locally known secret of a
    transfer is given by [known]. *)
Definition with_transfer_secret
    (known : ChainState -> SecretHash -> Secret) : Collaborators :=
  {| ABSENT_SECRET := ABSENT_SECRET;
     superclasses := superclasses;
     balanceproof_from_envelope := balanceproof_from_envelope;
     lockedtransfersigned_from_message := lockedtransfersigned_from_message;
     state_from_raiden := state_from_raiden;
     get_best_routes := get_best_routes;
     get_transfer_role := get_transfer_role;
     get_transfer_secret := known;
     random_secret_from := random_secret_from;
     is_secret_registered := is_secret_registered;
     pex := pex |}.

End Observations.

(** ** The shapes a dispatch can take *)

Section Outcomes.

Context {D : Domain} {C : Collaborators}.

(** An instance of one of the nine classes has the attributes of that
    class; nothing is asked of an instance of another class. *)
Definition well_formed (message : Message) : bool :=
  match type_of message, body message with
  | SecretRequest, SecretRequestBody _ _ _ _
  | RevealSecret, RevealSecretBody _
  | Unlock, UnlockBody _ _ _
  | LockExpired, LockExpiredBody _ _ _
  | RefundTransfer, RefundTransferBody _ _ _ _
  | LockedTransfer, LockedTransferBody _ _ _
  | WithdrawRequest, WithdrawRequestBody _ _ _
  | Delivered, DeliveredBody _
  | Processed, ProcessedBody _
  | OtherMessage _, _ => true
  | _, _ => false
  end.

Definition state_change_sender (state_change : StateChange) : Address :=
  match state_change with
  | ReceiveSecretRequest _ _ _ _ sender
  | ReceiveSecretReveal _ sender
  | ReceiveUnlock _ _ _ sender
  | ReceiveLockExpired sender _ _ _
  | ReceiveTransferRefund _ _ sender _
  | ReceiveTransferRefundCancelRoute _ _ _ sender _
  | ReceiveWithdrawRequest _ _ _ sender
  | ReceiveDelivered sender _
  | ReceiveProcessed sender _ => sender
  end.

(** The transfer, balance proof and routes of the two refund state
    changes. *)
Definition state_change_refund (state_change : StateChange)
    : option (LockedTransferSigned * BalanceProof * list Route) :=
  match state_change with
  | ReceiveTransferRefund transfer balance_proof _ routes
  | ReceiveTransferRefundCancelRoute routes transfer balance_proof _ _ =>
      Some (transfer, balance_proof, routes)
  | _ => None
  end.

Definition is_log (ev : Event) : bool :=
  match ev with
  | Log _ _ _ => true
  | _ => false
  end.

Definition is_registry_query (ev : Event) : bool :=
  match ev with
  | IsSecretRegistered _ _ _ => true
  | _ => false
  end.

(** The sender of a state change is read from the message, from the
    balance proof derived from it, or from the balance proof of the
    transfer rebuilt from it. *)
Definition sender_from_message (message : Message)
    (state_change : StateChange) : Prop :=
  state_change_sender state_change = sender message
  \/ state_change_sender state_change =
       balance_proof_sender (balanceproof_from_envelope message)
  \/ state_change_sender state_change =
       balance_proof_sender
         (transfer_balance_proof (lockedtransfersigned_from_message message)).

(** The message class each state change is built for. *)
Definition source_class (state_change : StateChange) : PyClass :=
  match state_change with
  | ReceiveSecretRequest _ _ _ _ _ => SecretRequest
  | ReceiveSecretReveal _ _ => RevealSecret
  | ReceiveUnlock _ _ _ _ => Unlock
  | ReceiveLockExpired _ _ _ _ => LockExpired
  | ReceiveTransferRefund _ _ _ _ => RefundTransfer
  | ReceiveTransferRefundCancelRoute _ _ _ _ _ => RefundTransfer
  | ReceiveWithdrawRequest _ _ _ _ => WithdrawRequest
  | ReceiveDelivered _ _ => Delivered
  | ReceiveProcessed _ _ => Processed
  end.

(** The runs of [on_message] from the world [w], one rule per way through
    the dispatcher and the handler it calls: the call of the handler
    raises; one of the eight working handlers hands its state change to
    the node (two rules for a refund, by role); the locked-transfer handler
    queries the registry and then warns or calls one entry point; the
    class is unknown and an error is logged. *)
Inductive Dispatched (raiden : RaidenService) (message : Message) (w : World)
    : Outcome unit * World -> Prop :=
| dispatched_raised (e : Exception) (name : string) :
    (e = TypeError /\ type_of message = WithdrawRequest)
    \/ (e = AttributeError /\ well_formed message = false) ->
    Dispatched raiden message w (Raised e, after w [Called name])
| dispatched_secretrequest (p a e : Z) (h : SecretHash) :
    type_of message = SecretRequest ->
    payment_identifier message = Some p ->
    amount message = Some a ->
    expiration message = Some e ->
    secrethash message = Some h ->
    Dispatched raiden message w
      (Returned tt,
       after w [Called "handle_message_secretrequest";
                HandleAndTrackStateChange
                  (ReceiveSecretRequest p a e h (sender message))])
| dispatched_revealsecret (s : Secret) :
    type_of message = RevealSecret ->
    secret message = Some s ->
    Dispatched raiden message w
      (Returned tt,
       after w [Called "handle_message_revealsecret";
                HandleAndTrackStateChange
                  (ReceiveSecretReveal s (sender message))])
| dispatched_unlock (i : Z) (s : Secret) :
    type_of message = Unlock ->
    message_identifier message = Some i ->
    secret message = Some s ->
    Dispatched raiden message w
      (Returned tt,
       after w [Called "handle_message_unlock";
                HandleAndTrackStateChange
                  (ReceiveUnlock i s (balanceproof_from_envelope message)
                     (balance_proof_sender
                        (balanceproof_from_envelope message)))])
| dispatched_lockexpired (i : Z) (h : SecretHash) :
    type_of message = LockExpired ->
    secrethash message = Some h ->
    message_identifier message = Some i ->
    Dispatched raiden message w
      (Returned tt,
       after w [Called "handle_message_lockexpired";
                HandleAndTrackStateChange
                  (ReceiveLockExpired
                     (balance_proof_sender
                        (balanceproof_from_envelope message))
                     (balanceproof_from_envelope message) h i)])
| dispatched_refund (tna : TokenNetworkAddress) :
    type_of message = RefundTransfer ->
    token_network_address message = Some tna ->
    refund_role raiden message <> "initiator" ->
    Dispatched raiden message w
      (Returned tt,
       after w [Called "handle_message_refundtransfer";
                HandleAndTrackStateChange
                  (ReceiveTransferRefund (refunded_transfer message)
                     (transfer_balance_proof (refunded_transfer message))
                     (balance_proof_sender
                        (transfer_balance_proof (refunded_transfer message)))
                     (refund_routes raiden message tna))])
| dispatched_cancel_route (tna : TokenNetworkAddress) :
    type_of message = RefundTransfer ->
    token_network_address message = Some tna ->
    refund_role raiden message = "initiator" ->
    Dispatched raiden message w
      (Returned tt,
       after_draw w
         [Called "handle_message_refundtransfer";
          HandleAndTrackStateChange
            (cancel_route message
               (if bytes_eqb (refund_old_secret raiden message) ABSENT_SECRET
                then [] else refund_routes raiden message tna)
               (fst (random_secret_from (entropy w))))])
| dispatched_locked_transfer (l : Lock) (tgt : Address) :
    type_of message = LockedTransfer ->
    lock message = Some l ->
    target message = Some tgt ->
    Dispatched raiden message w
      (Returned tt,
       after w
         [Called "handle_message_lockedtransfer";
          IsSecretRegistered (default_secret_registry raiden)
            (lock_secrethash l) "latest";
          if is_secret_registered (default_secret_registry raiden)
               (lock_secrethash l) "latest"
          then replay_warning (lock_secrethash l)
          else if bytes_eqb tgt (address raiden)
               then TargetMediatedTransfer message
               else MediateMediatedTransfer message])
| dispatched_delivered (i : Z) :
    type_of message = Delivered ->
    delivered_message_identifier message = Some i ->
    Dispatched raiden message w
      (Returned tt,
       after w [Called "handle_message_delivered";
                HandleAndTrackStateChange
                  (ReceiveDelivered (sender message) i)])
| dispatched_processed (i : Z) :
    type_of message = Processed ->
    message_identifier message = Some i ->
    Dispatched raiden message w
      (Returned tt,
       after w [Called "handle_message_processed";
                HandleAndTrackStateChange
                  (ReceiveProcessed (sender message) i)])
| dispatched_unknown (name : string) :
    type_of message = OtherMessage name ->
    Dispatched raiden message w
      (Returned tt,
       after w [Log ERROR "Unknown message cmdid {}" [LInt (cmdid message)]]).

End Outcomes.

(** ** A node with scripted collaborators

    The chain state records the role, the known secret and the routes the
    routing service will answer with; the registry is the list of
    registered secret hashes; the envelope of a message is reduced to the
    address that signed it; the n-th secret drawn is n+1 bytes long. The
    class hierarchy is the one of [raiden.messages], where [RefundTransfer]
    derives from [LockedTransfer]. *)

Module Fake.

Record Chain : Type := {
  role : string;
  known_secret : Secret;
  alternate_routes : list (list Address)
}.

Definition domain : Domain :=
  {| ChainState := Chain;
     Config := unit;
     Route := list Address;
     RouteMetadata := unit;
     Envelope := Address;
     SecretRegistry := list SecretHash;
     WriteAheadLog := Chain;
     Entropy := nat |}.

#[local] Existing Instance domain.

Definition signed_by (signer : Address) : BalanceProof :=
  {| balance_proof_envelope := signer; balance_proof_sender := signer |}.

Definition balance_proof_of (message : Message) : BalanceProof :=
  match body message with
  | UnlockBody _ _ envelope
  | LockExpiredBody _ _ envelope
  | RefundTransferBody _ _ _ envelope
  | LockedTransferBody _ _ envelope => signed_by envelope
  | _ => signed_by (sender message)
  end.

Definition transfer_of (message : Message) : LockedTransferSigned :=
  match body message with
  | RefundTransferBody _ lock target _
  | LockedTransferBody target lock _ =>
      {| transfer_lock := lock;
         transfer_target := target;
         transfer_balance_proof := balance_proof_of message |}
  | _ =>
      {| transfer_lock := {| lock_amount := 0; lock_secrethash := [] |};
         transfer_target := [];
         transfer_balance_proof := balance_proof_of message |}
  end.

Definition collaborators : Collaborators :=
  {| ABSENT_SECRET := [];
     superclasses := fun c =>
       match c with
       | RefundTransfer => [LockedTransfer]
       | _ => []
       end;
     balanceproof_from_envelope := balance_proof_of;
     lockedtransfersigned_from_message := transfer_of;
     state_from_raiden := fun raiden => wal raiden;
     get_best_routes := fun request =>
       (alternate_routes (rr_chain_state request), tt);
     get_transfer_role := fun chain_state _ => role chain_state;
     get_transfer_secret := fun chain_state _ => known_secret chain_state;
     random_secret_from := fun n => (repeat x2a (S n), S n);
     is_secret_registered := fun registry secrethash block_identifier =>
       String.eqb block_identifier "latest"
       && existsb (bytes_eqb secrethash) registry;
     pex := fun _ => "0x" |}.

#[local] Existing Instance collaborators.

Definition alice : Address := [x0a].
Definition bob : Address := [x0b].
Definition carol : Address := [x0c].
Definition dave : Address := [x0d].

Definition the_secrethash : SecretHash := [xaa; xbb].
Definition the_lock : Lock := {| lock_amount := 5; lock_secrethash := the_secrethash |}.
Definition two_routes : list (list Address) := [[bob; dave]; [carol; dave]].

(** Alice's node, with the given view of the transfer and registry. *)
Definition node (role : string) (known_secret : Secret)
    (registry : list SecretHash) : RaidenService :=
  {| address := alice;
     config := tt;
     privkey := [x01];
     default_one_to_n_address := [x02];
     default_secret_registry := registry;
     wal := {| role := role; known_secret := known_secret;
               alternate_routes := two_routes |} |}.

Definition start : World := {| entropy := 0%nat; trace := [] |}.

(** A refund sent by Bob for a transfer towards Dave. *)
Definition refund : Message :=
  {| type_of := RefundTransfer; cmdid := 8; sender := bob;
     body := RefundTransferBody [x03] the_lock dave bob |}.

(** A locked transfer sent by Bob, towards [target]. *)
Definition locked_transfer (target : Address) : Message :=
  {| type_of := LockedTransfer; cmdid := 7; sender := bob;
     body := LockedTransferBody target the_lock bob |}.

Definition withdraw_request : Message :=
  {| type_of := WithdrawRequest; cmdid := 15; sender := bob;
     body := WithdrawRequestBody [x03] 42 10 |}.

(** An unlock and a lock expiration signed by Carol, relayed by Bob. *)
Definition relayed_unlock : Message :=
  {| type_of := Unlock; cmdid := 4; sender := bob;
     body := UnlockBody 77 [x11] carol |}.

Definition relayed_lock_expired : Message :=
  {| type_of := LockExpired; cmdid := 13; sender := bob;
     body := LockExpiredBody 78 the_secrethash carol |}.

Definition ping : Message :=
  {| type_of := OtherMessage "Ping"; cmdid := 1; sender := bob;
     body := OtherBody |}.

Definition secret_request : Message :=
  {| type_of := SecretRequest; cmdid := 3; sender := dave;
     body := SecretRequestBody 9 5 100 the_secrethash |}.

Definition reveal_secret : Message :=
  {| type_of := RevealSecret; cmdid := 11; sender := dave;
     body := RevealSecretBody [x11] |}.

Definition processed : Message :=
  {| type_of := Processed; cmdid := 0; sender := bob;
     body := ProcessedBody 77 |}.

Definition delivered : Message :=
  {| type_of := Delivered; cmdid := 12; sender := bob;
     body := DeliveredBody 77 |}.

End Fake.

(** ** Equality tests *)

Lemma bytes_eqb_eq (a b : bytes) : bytes_eqb a b = true <-> a = b.
Proof.
  revert b; induction a as [|x a IH]; intros [|y b]; simpl; split;
    try congruence; try reflexivity.
  - intros H. apply andb_true_iff in H as [Hx Hab].
    apply byte_dec_bl in Hx. apply IH in Hab. congruence.
  - intros H. injection H as -> ->. apply andb_true_iff. split.
    + now apply byte_dec_lb.
    + now apply IH.
Qed.

Lemma bytes_eqb_refl (a : bytes) : bytes_eqb a a = true.
Proof. now apply bytes_eqb_eq. Qed.

Lemma bytes_eqb_neq (a b : bytes) : a <> b -> bytes_eqb a b = false.
Proof.
  intros H. destruct (bytes_eqb a b) eqn:E; auto.
  apply bytes_eqb_eq in E. contradiction.
Qed.

Lemma type_eq_refl (c : PyClass) : type_eq c c = true.
Proof. unfold type_eq. destruct (PyClass_eq_dec c c); congruence. Qed.

Lemma type_eq_true (a b : PyClass) : type_eq a b = true <-> a = b.
Proof. unfold type_eq. destruct (PyClass_eq_dec a b); split; congruence. Qed.

(** ** Traces *)

Section TraceFacts.

Context {D : Domain}.

Lemma new_events_app (w : World) (e : Entropy) (evs : list Event) :
  new_events w {| entropy := e; trace := trace w ++ evs |} = evs.
Proof.
  unfold new_events; simpl.
  induction (trace w) as [|ev t IH]; simpl; auto.
Qed.

Lemma new_events_after (w : World) (evs : list Event) :
  new_events w (after w evs) = evs.
Proof. apply new_events_app. Qed.

Lemma after_after (w : World) (evs evs' : list Event) :
  after (after w evs) evs' = after w (evs ++ evs').
Proof. unfold after; simpl. now rewrite app_assoc. Qed.

End TraceFacts.

(** Runs the effects of a handler body whose branches are decided. *)
Ltac exec :=
  repeat (cbn;
          unfold log_warning, log_error, handle_and_track_state_change,
            target_mediated_transfer, mediate_mediated_transfer,
            query_is_secret_registered, random_secret, emit, bind, ret);
  cbn; rewrite ?after_after; cbn.

(** Enters the branch of [on_message] for the class given by [H]. *)
Ltac dispatch H :=
  unfold on_message, isinstance; rewrite H; cbn.

Section Properties.

Context {D : Domain} {C : Collaborators}.

Lemma isinstance_exact (message : Message) (c : PyClass) :
  type_of message = c -> isinstance message c = true.
Proof. intros <-. unfold isinstance. now rewrite type_eq_refl. Qed.

(** *** Locked transfers *)

Lemma lockedtransfer_run (raiden : RaidenService) (message : Message)
    (w : World) (tgt : Address) (l : Lock) (env : Envelope) :
  type_of message = LockedTransfer ->
  body message = LockedTransferBody tgt l env ->
  on_message raiden message w =
    (Returned tt,
     after w
       [Called "handle_message_lockedtransfer";
        IsSecretRegistered (default_secret_registry raiden) (lock_secrethash l) "latest";
        if is_secret_registered (default_secret_registry raiden)
             (lock_secrethash l) "latest"
        then replay_warning (lock_secrethash l)
        else if bytes_eqb tgt (address raiden)
             then TargetMediatedTransfer message
             else MediateMediatedTransfer message]).
Proof.
  intros Ht Hb. dispatch Ht. unfold lock, target. rewrite Hb. exec.
  destruct (is_secret_registered _ _ _); exec; [reflexivity|].
  destruct (bytes_eqb tgt (address raiden)); exec; reflexivity.
Qed.

(** C2. A [LockedTransfer] makes the handler ask the secret registry about
    the lock's secrethash at block ["latest"] before anything else; when
    the registry answers that the secret is registered, the run ends
    normally with a warning logged, no state change handed to the node and
    neither mediation entry point called, whatever the target is. *)
Theorem lockedtransfer_registered_secret_is_dropped
    (raiden : RaidenService) (message : Message) (w : World)
    (tgt : Address) (l : Lock) (env : Envelope) :
  type_of message = LockedTransfer ->
  body message = LockedTransferBody tgt l env ->
  let query :=
    IsSecretRegistered (default_secret_registry raiden) (lock_secrethash l) "latest" in
  (exists last,
     on_message raiden message w =
       (Returned tt,
        after w [Called "handle_message_lockedtransfer"; query; last]))
  /\ (is_secret_registered (default_secret_registry raiden)
        (lock_secrethash l) "latest" = true ->
      on_message raiden message w =
        (Returned tt,
         after w [Called "handle_message_lockedtransfer"; query;
                  replay_warning (lock_secrethash l)])
      /\ state_changes (new_events w (snd (on_message raiden message w))) = []
      /\ entry_point_calls (new_events w (snd (on_message raiden message w))) = []).
Proof.
  intros Ht Hb query.
  pose proof (lockedtransfer_run raiden message w tgt l env Ht Hb) as Hrun.
  split.
  - eexists. exact Hrun.
  - intros Hreg. rewrite Hreg in Hrun. rewrite Hrun. cbn [snd].
    rewrite new_events_after. repeat split.
Qed.

(** C6. A [LockedTransfer] whose secrethash the registry does not know is
    handed, unmodified, to [target_mediated_transfer] when its target is
    the node's own address and to [mediate_mediated_transfer] otherwise;
    that call is the only entry point called, and no state change is
    handed to the node. *)
Theorem lockedtransfer_unregistered_goes_to_target_or_mediator
    (raiden : RaidenService) (message : Message) (w : World)
    (tgt : Address) (l : Lock) (env : Envelope) :
  type_of message = LockedTransfer ->
  body message = LockedTransferBody tgt l env ->
  is_secret_registered (default_secret_registry raiden)
    (lock_secrethash l) "latest" = false ->
  let evs := new_events w (snd (on_message raiden message w)) in
  on_message raiden message w =
    (Returned tt,
     after w
       [Called "handle_message_lockedtransfer";
        IsSecretRegistered (default_secret_registry raiden) (lock_secrethash l) "latest";
        if bytes_eqb tgt (address raiden)
        then TargetMediatedTransfer message
        else MediateMediatedTransfer message])
  /\ (tgt = address raiden ->
      entry_point_calls evs = [TargetMediatedTransfer message])
  /\ (tgt <> address raiden ->
      entry_point_calls evs = [MediateMediatedTransfer message])
  /\ state_changes evs = [].
Proof.
  intros Ht Hb Hreg evs. subst evs.
  rewrite (lockedtransfer_run raiden message w tgt l env Ht Hb), Hreg.
  cbn [snd]. rewrite new_events_after.
  split; [reflexivity|]. split; [|split].
  - intros ->. now rewrite bytes_eqb_refl.
  - intros Hne. now rewrite (bytes_eqb_neq _ _ Hne).
  - now destruct (bytes_eqb tgt (address raiden)).
Qed.

(** *** Messages of other classes *)

Lemma unknown_run (raiden : RaidenService) (message : Message) (w : World)
    (name : string) :
  type_of message = OtherMessage name ->
  on_message raiden message w =
    (Returned tt,
     after w [Log ERROR "Unknown message cmdid {}" [LInt (cmdid message)]]).
Proof. intros Ht. dispatch Ht. exec. reflexivity. Qed.

(** C9. A message whose class is none of the nine the dispatcher tests for
    is only logged: the run ends normally, hands no state change to the
    node and calls no handler and no mediation entry point. *)
Theorem unknown_message_is_logged_and_dropped
    (raiden : RaidenService) (message : Message) (w : World) (name : string) :
  type_of message = OtherMessage name ->
  on_message raiden message w =
    (Returned tt,
     after w [Log ERROR "Unknown message cmdid {}" [LInt (cmdid message)]])
  /\ state_changes (new_events w (snd (on_message raiden message w))) = []
  /\ entry_point_calls (new_events w (snd (on_message raiden message w))) = []
  /\ calls (new_events w (snd (on_message raiden message w))) = [].
Proof.
  intros Ht. rewrite (unknown_run raiden message w name Ht).
  cbn [snd]. rewrite new_events_after. repeat split.
Qed.

(** *** Refunds *)

Lemma refundtransfer_run (raiden : RaidenService) (message : Message)
    (w : World) (tna : TokenNetworkAddress) (l : Lock) (tgt : Address)
    (env : Envelope) :
  type_of message = RefundTransfer ->
  body message = RefundTransferBody tna l tgt env ->
  on_message raiden message w =
    if String.eqb (refund_role raiden message) "initiator" then
      (Returned tt,
       after_draw w
         [Called "handle_message_refundtransfer";
          HandleAndTrackStateChange
            (cancel_route message
               (if bytes_eqb (refund_old_secret raiden message) ABSENT_SECRET
                then [] else refund_routes raiden message tna)
               (fst (random_secret_from (entropy w))))])
    else
      (Returned tt,
       after w
         [Called "handle_message_refundtransfer";
          HandleAndTrackStateChange
            (ReceiveTransferRefund (refunded_transfer message)
               (transfer_balance_proof (refunded_transfer message))
               (balance_proof_sender
                  (transfer_balance_proof (refunded_transfer message)))
               (refund_routes raiden message tna))]).
Proof.
  intros Ht Hb. dispatch Ht. unfold token_network_address. rewrite Hb.
  unfold refund_role, refund_old_secret, refund_routes, refund_secrethash,
    refunded_transfer, cancel_route, after_draw.
  exec.
  destruct (get_best_routes _) as [routes metadata]. exec.
  destruct (String.eqb _ "initiator"); exec.
  - destruct (random_secret_from (entropy w)) as [secret rest]. exec.
    unfold after. cbn. rewrite <- app_assoc. reflexivity.
  - reflexivity.
Qed.

(** C1. When the node is the initiator of the refunded transfer and its
    known secret is [ABSENT_SECRET], the one state change handed to the
    node is a [ReceiveTransferRefundCancelRoute] with no routes, whatever
    routes the routing service answered with, and with the secret just
    drawn from the source of randomness, which is not empty as long as
    that source never yields an empty secret; no cancel-route state change
    with a route is handed over. *)
Theorem refund_initiator_without_secret_cancels_all_routes
    (raiden : RaidenService) (message : Message) (w : World)
    (tna : TokenNetworkAddress) (l : Lock) (tgt : Address) (env : Envelope) :
  type_of message = RefundTransfer ->
  body message = RefundTransferBody tna l tgt env ->
  (forall e : Entropy, fst (random_secret_from e) <> []) ->
  refund_role raiden message = "initiator" ->
  refund_old_secret raiden message = ABSENT_SECRET ->
  let fresh := fst (random_secret_from (entropy w)) in
  on_message raiden message w =
    (Returned tt,
     after_draw w
       [Called "handle_message_refundtransfer";
        HandleAndTrackStateChange (cancel_route message [] fresh)])
  /\ state_changes (new_events w (snd (on_message raiden message w))) =
       [cancel_route message [] fresh]
  /\ fresh <> []
  /\ (forall routes transfer balance_proof sender secret,
        In (ReceiveTransferRefundCancelRoute routes transfer balance_proof
              sender secret)
           (state_changes (new_events w (snd (on_message raiden message w)))) ->
        routes = []).
Proof.
  intros Ht Hb Hfresh Hrole Hold fresh.
  pose proof (refundtransfer_run raiden message w tna l tgt env Ht Hb) as Hrun.
  rewrite Hrole, Hold, bytes_eqb_refl in Hrun. cbn in Hrun.
  rewrite Hrun. cbn [snd]. unfold after_draw. rewrite new_events_app.
  split; [reflexivity|]. split; [reflexivity|]. split; [apply Hfresh|].
  cbn. intros routes transfer balance_proof sender0 secret0 [Heq|[]].
  unfold cancel_route in Heq. congruence.
Qed.

(** C3, as the handler behaves. When the node is the initiator and knows a
    secret other than [ABSENT_SECRET], the one state change handed to the
    node is a [ReceiveTransferRefundCancelRoute] that carries every route
    the routing service answered with, in order, and the secret just drawn
    from the source of randomness. *)
Theorem refund_initiator_with_secret_keeps_routes_and_draws_secret
    (raiden : RaidenService) (message : Message) (w : World)
    (tna : TokenNetworkAddress) (l : Lock) (tgt : Address) (env : Envelope) :
  type_of message = RefundTransfer ->
  body message = RefundTransferBody tna l tgt env ->
  refund_role raiden message = "initiator" ->
  refund_old_secret raiden message <> ABSENT_SECRET ->
  let fresh := fst (random_secret_from (entropy w)) in
  on_message raiden message w =
    (Returned tt,
     after_draw w
       [Called "handle_message_refundtransfer";
        HandleAndTrackStateChange
          (cancel_route message (refund_routes raiden message tna) fresh)])
  /\ state_changes (new_events w (snd (on_message raiden message w))) =
       [cancel_route message (refund_routes raiden message tna) fresh].
Proof.
  intros Ht Hb Hrole Hold fresh.
  pose proof (refundtransfer_run raiden message w tna l tgt env Ht Hb) as Hrun.
  rewrite Hrole, (bytes_eqb_neq _ _ Hold) in Hrun. cbn in Hrun.
  rewrite Hrun. cbn [snd]. unfold after_draw. rewrite new_events_app.
  split; reflexivity.
Qed.

(** C7. When the node is not the initiator of the refunded transfer,
    exactly one state change is handed to the node: a
    [ReceiveTransferRefund] with the transfer rebuilt from the message,
    that transfer's balance proof, the balance proof's sender, and the
    routes the routing service answered with, be they none. *)
Theorem refund_mediator_forwards_routes
    (raiden : RaidenService) (message : Message) (w : World)
    (tna : TokenNetworkAddress) (l : Lock) (tgt : Address) (env : Envelope) :
  type_of message = RefundTransfer ->
  body message = RefundTransferBody tna l tgt env ->
  refund_role raiden message <> "initiator" ->
  let transfer := lockedtransfersigned_from_message message in
  let state_change :=
    ReceiveTransferRefund transfer (transfer_balance_proof transfer)
      (balance_proof_sender (transfer_balance_proof transfer))
      (refund_routes raiden message tna) in
  on_message raiden message w =
    (Returned tt,
     after w [Called "handle_message_refundtransfer";
              HandleAndTrackStateChange state_change])
  /\ state_changes (new_events w (snd (on_message raiden message w))) =
       [state_change].
Proof.
  intros Ht Hb Hrole transfer state_change.
  pose proof (refundtransfer_run raiden message w tna l tgt env Ht Hb) as Hrun.
  apply String.eqb_neq in Hrole. rewrite Hrole in Hrun.
  rewrite Hrun. cbn [snd]. rewrite new_events_after.
  split; reflexivity.
Qed.

(** *** Direct translations *)

(** C8. For an [Unlock] and for a [LockExpired], the balance proof is
    derived from the message by [balanceproof_from_envelope], and the
    sender of the state change handed to the node is the sender of that
    balance proof, whatever the [sender] attribute of the message is. *)
Theorem unlock_and_lockexpired_sender_is_balance_proof_sender
    (raiden : RaidenService) (message : Message) (w : World) :
  let balance_proof := balanceproof_from_envelope message in
  (forall i s env,
     type_of message = Unlock ->
     body message = UnlockBody i s env ->
     on_message raiden message w =
       (Returned tt,
        after w [Called "handle_message_unlock";
                 HandleAndTrackStateChange
                   (ReceiveUnlock i s balance_proof
                      (balance_proof_sender balance_proof))]))
  /\ (forall i h env,
        type_of message = LockExpired ->
        body message = LockExpiredBody i h env ->
        on_message raiden message w =
          (Returned tt,
           after w [Called "handle_message_lockexpired";
                    HandleAndTrackStateChange
                      (ReceiveLockExpired (balance_proof_sender balance_proof)
                         balance_proof h i)])).
Proof.
  intros balance_proof. split.
  - intros i s env Ht Hb. dispatch Ht.
    unfold message_identifier, secret. rewrite Hb. exec. reflexivity.
  - intros i h env Ht Hb. dispatch Ht.
    unfold message_identifier, secrethash. rewrite Hb. exec. reflexivity.
Qed.

(** The body of [handle_message_withdrawrequest], given the node and the
    message as its two arguments, copies the four fields of the message
    into a [ReceiveWithdrawRequest]. *)
Lemma withdrawrequest_body_translates (raiden : RaidenService)
    (message : Message) (w : World) (tni : TokenNetworkAddress) (ci a : Z) :
  body message = WithdrawRequestBody tni ci a ->
  method_code handle_message_withdrawrequest
    [VRaiden raiden; VMessage message] w =
    (Returned tt,
     after w [HandleAndTrackStateChange
                (ReceiveWithdrawRequest tni ci a (sender message))]).
Proof.
  intros Hb. cbn.
  unfold token_network_identifier, channel_identifier, amount. rewrite Hb.
  exec. reflexivity.
Qed.

(** Called through the instance, it receives three arguments for its two
    parameters. *)
Lemma withdrawrequest_run (raiden : RaidenService) (message : Message)
    (w : World) :
  type_of message = WithdrawRequest ->
  on_message raiden message w =
    (Raised TypeError, after w [Called "handle_message_withdrawrequest"]).
Proof. intros Ht. dispatch Ht. exec. reflexivity. Qed.

(** *** Which handler a message reaches *)

Lemma quiet_ret {A : Type} (a : A) : quiet (ret a).
Proof. intros w. exists []. cbn. now rewrite app_nil_r. Qed.

Lemma quiet_raise {A : Type} (e : Exception) : quiet (@raise D A e).
Proof. intros w. exists []. cbn. now rewrite app_nil_r. Qed.

Lemma quiet_attr {A : Type} (a : option A) : quiet (attr a).
Proof. destruct a; [apply quiet_ret | apply quiet_raise]. Qed.

Lemma quiet_emit (ev : Event) : calls [ev] = [] -> quiet (emit ev).
Proof. intros H w. exists [ev]. now cbn. Qed.

Lemma quiet_random_secret : quiet random_secret.
Proof.
  intros w. exists []. unfold random_secret.
  destruct (random_secret_from (entropy w)). cbn. now rewrite app_nil_r.
Qed.

Lemma quiet_bind {A B : Type} (c : M A) (k : A -> M B) :
  quiet c -> (forall a, quiet (k a)) -> quiet (bind c k).
Proof.
  intros Hc Hk w. unfold bind.
  destruct (Hc w) as [evs [Ht Hq]].
  destruct (c w) as [[a|e] w1]; cbn in Ht |- *.
  - destruct (Hk a w1) as [evs' [Ht' Hq']].
    exists (evs ++ evs'). rewrite Ht', Ht, app_assoc. split; auto.
    unfold calls in *. now rewrite flat_map_app, Hq, Hq'.
  - exists evs. auto.
Qed.

Lemma quiet_def2 (f : RaidenService -> Message -> M unit) :
  (forall raiden message, quiet (f raiden message)) ->
  forall args, quiet (def2 f args).
Proof.
  intros Hf args. unfold def2.
  repeat match goal with
         | |- quiet (match ?x with _ => _ end) => destruct x
         end; first [apply Hf | apply quiet_raise].
Qed.

(** Decomposes a handler body into the steps above. *)
Ltac quiet_steps :=
  repeat (cbv beta zeta; intros;
    match goal with
    | |- quiet (bind _ _) => apply quiet_bind
    | |- quiet (ret _) => apply quiet_ret
    | |- quiet (raise _) => apply quiet_raise
    | |- quiet (attr _) => apply quiet_attr
    | |- quiet random_secret => apply quiet_random_secret
    | |- quiet (emit _) => apply quiet_emit; reflexivity
    | |- quiet (if ?b then _ else _) => destruct b
    | |- quiet (let (_, _) := ?p in _) => destruct p
    | |- quiet _ =>
        progress unfold log_warning, log_error, handle_and_track_state_change,
          target_mediated_transfer, mediate_mediated_transfer,
          query_is_secret_registered
    end).

Lemma handlers_are_quiet (c : PyClass) (h : Method) (args : list PyValue) :
  In (c, h) handlers -> quiet (method_code h args).
Proof.
  unfold handlers. cbn [In]. intros H.
  repeat (destruct H as [H|H]; [injection H as <- <- |]); [..|contradiction];
    cbn [method_code handle_message_secretrequest handle_message_revealsecret
           handle_message_unlock handle_message_lockexpired
           handle_message_refundtransfer handle_message_lockedtransfer
           handle_message_withdrawrequest handle_message_delivered
           handle_message_processed staticmethod function];
    apply quiet_def2; quiet_steps.
Qed.

Lemma self_call_calls (c : PyClass) (h : Method) (args : list PyValue)
    (w : World) :
  In (c, h) handlers ->
  calls (new_events w (snd (self_call h args w))) = [method_name h].
Proof.
  intros Hin. unfold self_call, bind, emit. cbn.
  assert (Hq : quiet (if is_staticmethod h then method_code h args
                      else method_code h (VSelf :: args))).
  { destruct (is_staticmethod h); eapply handlers_are_quiet; eassumption. }
  destruct (Hq (after w [Called (method_name h)])) as [evs [Ht Hc]].
  unfold new_events. rewrite Ht. cbn [after trace].
  rewrite <- app_assoc.
  change (skipn (List.length (trace w))
            (trace w ++ [Called (method_name h)] ++ evs))
    with (new_events w {| entropy := entropy w;
                          trace := trace w ++ [Called (method_name h)] ++ evs |}).
  rewrite new_events_app. unfold calls in *. cbn. now rewrite Hc.
Qed.

Lemma on_message_selects (raiden : RaidenService) (message : Message)
    (w : World) (c : PyClass) (h : Method) :
  In (c, h) handlers ->
  type_of message = c ->
  on_message raiden message w =
    self_call h [VRaiden raiden; VMessage message] w.
Proof.
  unfold handlers. cbn [In]. intros H.
  repeat (destruct H as [H|H]; [injection H as <- <- |]); [..|contradiction];
    intros Ht; dispatch Ht; reflexivity.
Qed.

Lemma handler_names_distinct (c c' : PyClass) (h h' : Method) :
  In (c, h) handlers -> In (c', h') handlers ->
  method_name h = method_name h' -> c = c'.
Proof.
  unfold handlers. cbn [In]. intros H H'.
  repeat (destruct H as [H|H]; [injection H as <- <- |]); [..|contradiction];
    repeat (destruct H' as [H'|H']; [injection H' as <- <- |]);
    try contradiction; cbn; intros Hname;
    first [reflexivity | discriminate Hname].
Qed.

Lemma known_or_other (c : PyClass) :
  (exists h, In (c, h) handlers) \/ (exists name, c = OtherMessage name).
Proof.
  destruct c; [left; eexists; unfold handlers; cbn [In]; auto 10 ..|].
  right. eexists. reflexivity.
Qed.

(** C5. For each of the nine classes the dispatcher knows, a message whose
    class is exactly that class is passed to that class's handler and to
    no other; a message of any other class, be it a subclass of that class
    or an object with the same attributes, never reaches that handler. *)
Theorem dispatch_is_by_exact_class
    (raiden : RaidenService) (message : Message) (w : World)
    (c : PyClass) (h : Method) :
  In (c, h) handlers ->
  (type_of message = c ->
   on_message raiden message w =
     self_call h [VRaiden raiden; VMessage message] w
   /\ calls (new_events w (snd (on_message raiden message w))) =
        [method_name h])
  /\ (type_of message <> c ->
      ~ In (method_name h)
          (calls (new_events w (snd (on_message raiden message w))))).
Proof.
  intros Hin. split.
  - intros Ht.
    rewrite (on_message_selects raiden message w c h Hin Ht).
    split; [reflexivity|]. now apply (self_call_calls c).
  - intros Hne Hcalled.
    destruct (known_or_other (type_of message)) as [[h' Hin']|[name Ht]].
    + rewrite (on_message_selects raiden message w _ h' Hin' eq_refl),
        (self_call_calls _ h' _ w Hin') in Hcalled.
      destruct Hcalled as [Hname|[]].
      apply Hne. symmetry.
      exact (handler_names_distinct _ _ _ _ Hin Hin' (eq_sym Hname)).
    + rewrite (unknown_run raiden message w name Ht) in Hcalled.
      cbn [snd] in Hcalled. rewrite new_events_after in Hcalled.
      exact Hcalled.
Qed.

End Properties.

(** *** The secret of a cancelled route *)

Section SecretOfCancelRoute.

Context {D : Domain} {C : Collaborators}.

(** C10. When the node is the initiator of the refunded transfer, the
    secret of the [ReceiveTransferRefundCancelRoute] handed to the node is
    the one drawn from the source of randomness during the dispatch,
    whatever the locally known secret is: replacing the lookup of the known
    secret by any other changes neither the secret of the state change nor
    the fact that one secret is drawn. *)
Theorem refund_initiator_secret_is_always_freshly_drawn
    (known : ChainState -> SecretHash -> Secret)
    (raiden : RaidenService) (message : Message) (w : World)
    (tna : TokenNetworkAddress) (l : Lock) (tgt : Address) (env : Envelope) :
  type_of message = RefundTransfer ->
  body message = RefundTransferBody tna l tgt env ->
  refund_role raiden message = "initiator" ->
  exists routes,
    on_message (C := with_transfer_secret known) raiden message w =
      (Returned tt,
       after_draw w
         [Called "handle_message_refundtransfer";
          HandleAndTrackStateChange
            (cancel_route message routes
               (fst (random_secret_from (entropy w))))])
    /\ (routes = [] \/ routes = refund_routes raiden message tna).
Proof.
  intros Ht Hb Hrole.
  pose proof (refundtransfer_run (C := with_transfer_secret known)
                raiden message w tna l tgt env Ht Hb) as Hrun.
  change (refund_role (C := with_transfer_secret known) raiden message)
    with (refund_role raiden message) in Hrun.
  rewrite Hrole in Hrun. cbn [String.eqb Ascii.eqb Bool.eqb] in Hrun.
  eexists. split; [exact Hrun|].
  destruct (bytes_eqb _ _); [left | right]; reflexivity.
Qed.

End SecretOfCancelRoute.

(** ** The properties on the scripted node *)

Section Scripted.

#[local] Existing Instance Fake.domain.
#[local] Existing Instance Fake.collaborators.

(** C4, on the code. A [WithdrawRequest] reaches
    [handle_message_withdrawrequest] through [self]; the function has two
    parameters and no [staticmethod] decorator, so the call passes three
    arguments and raises [TypeError] before the body runs: no state change
    is handed to the node. The body, given the node and the message alone,
    would hand over the [ReceiveWithdrawRequest] with the four fields of
    the message. *)
Theorem withdrawrequest_dispatch_raises_type_error :
  on_message (Fake.node "mediator" [] []) Fake.withdraw_request Fake.start =
    (Raised TypeError,
     {| entropy := 0%nat; trace := [Called "handle_message_withdrawrequest"] |})
  /\ state_changes
       (trace (snd (on_message (Fake.node "mediator" [] [])
                      Fake.withdraw_request Fake.start))) = []
  /\ method_code handle_message_withdrawrequest
       [VRaiden (Fake.node "mediator" [] []); VMessage Fake.withdraw_request]
       Fake.start =
     (Returned tt,
      {| entropy := 0%nat;
         trace := [HandleAndTrackStateChange
                     (ReceiveWithdrawRequest [x03] 42 10 Fake.bob)] |}).
Proof.
  rewrite (withdrawrequest_run _ Fake.withdraw_request Fake.start eq_refl).
  rewrite (withdrawrequest_body_translates _ Fake.withdraw_request Fake.start
             [x03] 42 10 eq_refl).
  repeat split.
Qed.

(** Alice initiated the transfer and has no secret: both routes found are
    dropped, and the secret is the one drawn. *)
Lemma refund_initiator_without_secret_witness :
  on_message (Fake.node "initiator" [] []) Fake.refund Fake.start =
    (Returned tt,
     {| entropy := 1%nat;
        trace :=
          [Called "handle_message_refundtransfer";
           HandleAndTrackStateChange
             (ReceiveTransferRefundCancelRoute []
                (Fake.transfer_of Fake.refund) (Fake.signed_by Fake.bob)
                Fake.bob [x2a])] |})
  /\ [x2a] <> @nil byte.
Proof.
  pose proof (refund_initiator_without_secret_cancels_all_routes
                (Fake.node "initiator" [] []) Fake.refund Fake.start
                [x03] Fake.the_lock Fake.dave Fake.bob eq_refl eq_refl
                (fun e H => @nil_cons byte x2a (repeat x2a e) (eq_sym H))
                eq_refl eq_refl) as [Hrun [_ [Hfresh _]]].
  split; [exact Hrun | exact Hfresh].
Defined.

(** The registry knows the secrethash: the transfer is dropped although
    its target is Alice herself. *)
Lemma lockedtransfer_registered_witness :
  on_message (Fake.node "target" [] [Fake.the_secrethash])
    (Fake.locked_transfer Fake.alice) Fake.start =
    (Returned tt,
     {| entropy := 0%nat;
        trace :=
          [Called "handle_message_lockedtransfer";
           IsSecretRegistered [Fake.the_secrethash] Fake.the_secrethash "latest";
           Log WARNING
             "Ignoring received locked transfer with secrethash {} since it is already registered in the secret registry"
             [LText "0x"]] |}).
Proof.
  exact (proj1 (proj2 (lockedtransfer_registered_secret_is_dropped
                         (Fake.node "target" [] [Fake.the_secrethash])
                         (Fake.locked_transfer Fake.alice) Fake.start
                         Fake.alice Fake.the_lock Fake.bob eq_refl eq_refl)
                  eq_refl)).
Defined.

(** C3, as stated, fails: Alice initiated the transfer and knows the
    secret [01]; both routes are kept, but the state change carries the
    drawn secret [2a], not [01]. *)
Lemma refund_initiator_known_secret_is_not_reused :
  refund_role (Fake.node "initiator" [x01] []) Fake.refund = "initiator"
  /\ refund_old_secret (Fake.node "initiator" [x01] []) Fake.refund = [x01]
  /\ [x01] <> ABSENT_SECRET
  /\ refund_routes (Fake.node "initiator" [x01] []) Fake.refund [x03] =
       Fake.two_routes
  /\ state_changes
       (new_events Fake.start
          (snd (on_message (Fake.node "initiator" [x01] []) Fake.refund
                  Fake.start))) <>
     [cancel_route Fake.refund Fake.two_routes [x01]].
Proof.
  split; [reflexivity|]. split; [reflexivity|].
  split; [discriminate|]. split; [reflexivity|].
  vm_compute. intros H. discriminate H.
Qed.

Lemma refund_initiator_with_secret_witness :
  on_message (Fake.node "initiator" [x01] []) Fake.refund Fake.start =
    (Returned tt,
     {| entropy := 1%nat;
        trace :=
          [Called "handle_message_refundtransfer";
           HandleAndTrackStateChange
             (ReceiveTransferRefundCancelRoute Fake.two_routes
                (Fake.transfer_of Fake.refund) (Fake.signed_by Fake.bob)
                Fake.bob [x2a])] |}).
Proof.
  refine (proj1 (refund_initiator_with_secret_keeps_routes_and_draws_secret
                   (Fake.node "initiator" [x01] []) Fake.refund Fake.start
                   [x03] Fake.the_lock Fake.dave Fake.bob eq_refl eq_refl
                   eq_refl _)).
  cbn. discriminate.
Defined.

(** A [RefundTransfer] is an instance of [LockedTransfer], yet only the
    refund handler is called. *)
Lemma dispatch_is_by_exact_class_witness :
  isinstance Fake.refund LockedTransfer = true
  /\ calls (new_events Fake.start
              (snd (on_message (Fake.node "mediator" [] []) Fake.refund
                      Fake.start))) =
       ["handle_message_refundtransfer"]
  /\ ~ In "handle_message_lockedtransfer"
         (calls (new_events Fake.start
                   (snd (on_message (Fake.node "mediator" [] []) Fake.refund
                           Fake.start)))).
Proof.
  split; [reflexivity|]. split.
  - refine (proj2 (proj1 (dispatch_is_by_exact_class
                            (Fake.node "mediator" [] []) Fake.refund Fake.start
                            RefundTransfer handle_message_refundtransfer _)
                     eq_refl)).
    cbn. auto 10.
  - refine (proj2 (dispatch_is_by_exact_class
                     (Fake.node "mediator" [] []) Fake.refund Fake.start
                     LockedTransfer handle_message_lockedtransfer _) _).
    + cbn. auto 10.
    + cbn. discriminate.
Defined.

(** A transfer towards Alice goes to the target entry point. *)
Lemma lockedtransfer_unregistered_witness :
  entry_point_calls
    (new_events Fake.start
       (snd (on_message (Fake.node "target" [] [])
               (Fake.locked_transfer Fake.alice) Fake.start))) =
    [TargetMediatedTransfer (Fake.locked_transfer Fake.alice)].
Proof.
  exact (proj1 (proj2 (lockedtransfer_unregistered_goes_to_target_or_mediator
                         (Fake.node "target" [] [])
                         (Fake.locked_transfer Fake.alice) Fake.start
                         Fake.alice Fake.the_lock Fake.bob
                         eq_refl eq_refl eq_refl))
           eq_refl).
Defined.

Lemma refund_mediator_witness :
  on_message (Fake.node "mediator" [] []) Fake.refund Fake.start =
    (Returned tt,
     {| entropy := 0%nat;
        trace :=
          [Called "handle_message_refundtransfer";
           HandleAndTrackStateChange
             (ReceiveTransferRefund (Fake.transfer_of Fake.refund)
                (Fake.signed_by Fake.bob) Fake.bob Fake.two_routes)] |}).
Proof.
  refine (proj1 (refund_mediator_forwards_routes
                   (Fake.node "mediator" [] []) Fake.refund Fake.start
                   [x03] Fake.the_lock Fake.dave Fake.bob eq_refl eq_refl _)).
  cbn. discriminate.
Defined.

(** Bob relays messages signed by Carol: the state changes name Carol. *)
Lemma unlock_and_lockexpired_sender_witness :
  sender Fake.relayed_unlock = Fake.bob
  /\ on_message (Fake.node "target" [] []) Fake.relayed_unlock Fake.start =
       (Returned tt,
        {| entropy := 0%nat;
           trace :=
             [Called "handle_message_unlock";
              HandleAndTrackStateChange
                (ReceiveUnlock 77 [x11] (Fake.signed_by Fake.carol)
                   Fake.carol)] |})
  /\ sender Fake.relayed_lock_expired = Fake.bob
  /\ on_message (Fake.node "target" [] []) Fake.relayed_lock_expired
       Fake.start =
       (Returned tt,
        {| entropy := 0%nat;
           trace :=
             [Called "handle_message_lockexpired";
              HandleAndTrackStateChange
                (ReceiveLockExpired Fake.carol (Fake.signed_by Fake.carol)
                   Fake.the_secrethash 78)] |}).
Proof.
  split; [reflexivity|]. split.
  - exact (proj1 (unlock_and_lockexpired_sender_is_balance_proof_sender
                    (Fake.node "target" [] []) Fake.relayed_unlock Fake.start)
             77%Z [x11] Fake.carol eq_refl eq_refl).
  - split; [reflexivity|].
    exact (proj2 (unlock_and_lockexpired_sender_is_balance_proof_sender
                    (Fake.node "target" [] []) Fake.relayed_lock_expired
                    Fake.start)
             78%Z Fake.the_secrethash Fake.carol eq_refl eq_refl).
Defined.

Lemma unknown_message_witness :
  on_message (Fake.node "mediator" [] []) Fake.ping Fake.start =
    (Returned tt,
     {| entropy := 0%nat;
        trace := [Log ERROR "Unknown message cmdid {}" [LInt 1]] |}).
Proof.
  exact (proj1 (unknown_message_is_logged_and_dropped
                  (Fake.node "mediator" [] []) Fake.ping Fake.start "Ping"
                  eq_refl)).
Defined.

(** Whether the node's view holds no secret or the secret [01], the state
    change carries the drawn secret [2a]. *)
Lemma refund_initiator_secret_witness :
  exists routes,
    on_message (C := with_transfer_secret (C := Fake.collaborators)
                         (fun _ _ => [x01]))
      (Fake.node "initiator" [] []) Fake.refund Fake.start =
      (Returned tt,
       {| entropy := 1%nat;
          trace :=
            [Called "handle_message_refundtransfer";
             HandleAndTrackStateChange
               (ReceiveTransferRefundCancelRoute routes
                  (Fake.transfer_of Fake.refund) (Fake.signed_by Fake.bob)
                  Fake.bob [x2a])] |}).
Proof.
  destruct (refund_initiator_secret_is_always_freshly_drawn
              (C := Fake.collaborators) (fun _ _ => [x01]) (Fake.node "initiator" [] []) Fake.refund
              Fake.start [x03] Fake.the_lock Fake.dave Fake.bob
              eq_refl eq_refl eq_refl) as [routes [Hrun _]].
  exists routes. exact Hrun.
Defined.

End Scripted.

(** ** Every dispatch, whatever the message *)

Section Coverage.

Context {D : Domain} {C : Collaborators}.

(** Reads the attributes of a message whose layout is known. *)
Ltac read_attrs Hb :=
  unfold payment_identifier, amount, expiration, secrethash, secret,
    message_identifier, delivered_message_identifier, token_network_address,
    token_network_identifier, channel_identifier, lock, target;
  rewrite ?Hb.

(** The handler reads an attribute the layout lacks. *)
Ltac attribute_error Ht Hb :=
  dispatch Ht; read_attrs Hb; exec;
  apply dispatched_raised; right; split; [reflexivity|];
  unfold well_formed; rewrite Ht, Hb; reflexivity.

(** The handler finds its attributes and hands over its state change. *)
Ltac translated Ht Hb :=
  dispatch Ht; read_attrs Hb; exec;
  first [ eapply dispatched_secretrequest
        | eapply dispatched_revealsecret
        | eapply dispatched_unlock
        | eapply dispatched_lockexpired
        | eapply dispatched_delivered
        | eapply dispatched_processed ];
  first [ exact Ht | read_attrs Hb; reflexivity ].

Lemma refundtransfer_run_attrs (raiden : RaidenService) (message : Message)
    (w : World) (tna : TokenNetworkAddress) :
  type_of message = RefundTransfer ->
  token_network_address message = Some tna ->
  Dispatched raiden message w (on_message raiden message w).
Proof.
  intros Ht Htna.
  assert (Hb : exists l tgt env, body message = RefundTransferBody tna l tgt env).
  { unfold token_network_address in Htna.
    destruct (body message); try discriminate Htna.
    injection Htna as ->. eauto. }
  destruct Hb as [l [tgt [env Hb]]].
  rewrite (refundtransfer_run raiden message w tna l tgt env Ht Hb).
  destruct (String.eqb _ "initiator") eqn:Hrole.
  - apply String.eqb_eq in Hrole. now apply dispatched_cancel_route.
  - apply String.eqb_neq in Hrole. now apply dispatched_refund.
Qed.

Lemma lockedtransfer_run_attrs (raiden : RaidenService) (message : Message)
    (w : World) (l : Lock) (tgt : Address) :
  type_of message = LockedTransfer ->
  lock message = Some l ->
  target message = Some tgt ->
  Dispatched raiden message w (on_message raiden message w).
Proof.
  intros Ht Hl Htgt.
  assert (Hrun : on_message raiden message w =
    (Returned tt,
     after w
       [Called "handle_message_lockedtransfer";
        IsSecretRegistered (default_secret_registry raiden)
          (lock_secrethash l) "latest";
        if is_secret_registered (default_secret_registry raiden)
             (lock_secrethash l) "latest"
        then replay_warning (lock_secrethash l)
        else if bytes_eqb tgt (address raiden)
             then TargetMediatedTransfer message
             else MediateMediatedTransfer message])).
  { dispatch Ht. rewrite Hl. exec.
    destruct (is_secret_registered _ _ _); exec; [reflexivity|].
    rewrite Htgt. exec.
    destruct (bytes_eqb tgt (address raiden)); exec; reflexivity. }
  rewrite Hrun. now apply dispatched_locked_transfer.
Qed.

(** Every run of the dispatcher is one of the runs of [Dispatched]. *)
Lemma on_message_dispatched (raiden : RaidenService) (message : Message)
    (w : World) :
  Dispatched raiden message w (on_message raiden message w).
Proof.
  destruct (type_of message) eqn:Ht.
  1-4, 8-9:
    destruct (body message) eqn:Hb;
    first [ translated Ht Hb | attribute_error Ht Hb ].
  - (* RefundTransfer *)
    destruct (body message) eqn:Hb; try attribute_error Ht Hb.
    apply (refundtransfer_run_attrs raiden message w token_network_address0 Ht).
    unfold token_network_address. now rewrite Hb.
  - (* LockedTransfer *)
    destruct (body message) eqn:Hb; try attribute_error Ht Hb;
      apply (lockedtransfer_run_attrs raiden message w lock0 target0 Ht);
      unfold lock, target; now rewrite Hb.
  - (* WithdrawRequest *)
    rewrite (withdrawrequest_run raiden message w Ht).
    apply dispatched_raised. now left.
  - (* a class the dispatcher does not know *)
    rewrite (unknown_run raiden message w name Ht).
    now apply (dispatched_unknown raiden message w name).
Qed.

(** Replaces the run by one of the runs of [Dispatched]. *)
Ltac by_shape raiden message w :=
  let H := fresh "Hshape" in
  pose proof (on_message_dispatched raiden message w) as H;
  destruct H as [exn hname Hexn
                | p0 a0 e0 h0 Htype Hp Ha He Hh
                | s0 Htype Hs
                | i0 s0 Htype Hi Hs
                | i0 h0 Htype Hh Hi
                | tna0 Htype Htna Hrole
                | tna0 Htype Htna Hrole
                | lk tgt0 Htype Hlock Htarget
                | i0 Htype Hi
                | i0 Htype Hi
                | cname Htype];
  cbn [fst snd]; unfold after_draw;
  rewrite ?new_events_after, ?new_events_app.

(** Splits the run of the locked-transfer handler by the answer of the
    registry and by the comparison of the target. *)
Ltac by_answer :=
  destruct (is_secret_registered _ _ _) eqn:Hregistered;
  [| destruct (bytes_eqb _ (address _)) eqn:Hmine ].

(** X1. A dispatch that raises does so with [TypeError], for a
    [WithdrawRequest], or with [AttributeError], for a message that lacks
    an attribute of its class; it never raises the [AssertionError] of the
    [isinstance] checks. When it raises, nothing was handed to the node, no
    entry point was called and no secret was drawn. *)
Theorem failed_dispatch_leaves_the_node_untouched
    (raiden : RaidenService) (message : Message) (w : World) (e : Exception) :
  fst (on_message raiden message w) = Raised e ->
  ((e = TypeError /\ type_of message = WithdrawRequest)
   \/ (e = AttributeError /\ well_formed message = false))
  /\ state_changes (new_events w (snd (on_message raiden message w))) = []
  /\ entry_point_calls (new_events w (snd (on_message raiden message w))) = []
  /\ entropy (snd (on_message raiden message w)) = entropy w.
Proof.
  by_shape raiden message w; intros Hraised; try discriminate Hraised.
  injection Hraised as <-. repeat split; assumption.
Qed.

(** X2. Whatever the message, one dispatch calls at most one handler and
    takes at most one action on the node: it hands over one state change,
    or calls one mediation entry point, or does neither. *)
Theorem dispatch_takes_at_most_one_action
    (raiden : RaidenService) (message : Message) (w : World) :
  let evs := new_events w (snd (on_message raiden message w)) in
  List.length (calls evs) <= 1
  /\ List.length (state_changes evs) + List.length (entry_point_calls evs) <= 1.
Proof.
  intros evs. subst evs.
  by_shape raiden message w; try by_answer; cbn; split; repeat constructor.
Qed.


(** X4. The secret registry is queried only for a message whose class is
    exactly [LockedTransfer], only through the node's default registry,
    only at block ["latest"] and only about the secrethash of the
    message's lock. *)
Theorem registry_is_queried_only_for_locked_transfers
    (raiden : RaidenService) (message : Message) (w : World)
    (registry : SecretRegistry) (h : SecretHash) (block_identifier : string) :
  In (IsSecretRegistered registry h block_identifier)
     (new_events w (snd (on_message raiden message w))) ->
  type_of message = LockedTransfer
  /\ registry = default_secret_registry raiden
  /\ block_identifier = "latest"
  /\ exists l, lock message = Some l /\ h = lock_secrethash l.
Proof.
  by_shape raiden message w; cbn [In]; intros Hin;
    repeat (destruct Hin as [Hin|Hin]; try discriminate Hin);
    try contradiction.
  - injection Hin as <- <- <-. repeat split; auto. now exists lk.
  - by_answer; discriminate Hin.
Qed.

(** X5. A dispatch that writes a log record does nothing else: it returns
    normally, hands no state change to the node and calls no mediation
    entry point. *)
Theorem a_logged_message_is_dropped
    (raiden : RaidenService) (message : Message) (w : World) :
  existsb is_log (new_events w (snd (on_message raiden message w))) = true ->
  fst (on_message raiden message w) = Returned tt
  /\ state_changes (new_events w (snd (on_message raiden message w))) = []
  /\ entry_point_calls (new_events w (snd (on_message raiden message w))) = [].
Proof.
  by_shape raiden message w; try by_answer; cbn; intros Hlog;
    try discriminate Hlog; repeat split.
Qed.

(** X6. The sender of every state change handed to the node comes from the
    message: it is the [sender] attribute of the message, the sender of the
    balance proof derived from the message, or the sender of the balance
    proof of the transfer rebuilt from the message. *)
Theorem state_change_sender_comes_from_the_message
    (raiden : RaidenService) (message : Message) (w : World)
    (state_change : StateChange) :
  In state_change
     (state_changes (new_events w (snd (on_message raiden message w)))) ->
  sender_from_message message state_change.
Proof.
  by_shape raiden message w; try by_answer; cbn; intros Hin;
    repeat (destruct Hin as [Hin|Hin]); try contradiction;
    subst state_change;
    unfold sender_from_message, cancel_route, refunded_transfer; cbn; auto.
Qed.

(** X7. For a message that has the attributes of its class, the dispatch
    raises exactly when the class is [WithdrawRequest], and then it raises
    [TypeError]; for every other class, known or not, it returns
    normally. *)
Theorem well_formed_dispatch_raises_only_for_withdraw_requests
    (raiden : RaidenService) (message : Message) (w : World) :
  well_formed message = true ->
  fst (on_message raiden message w) =
    if type_eq (type_of message) WithdrawRequest
    then Raised TypeError else Returned tt.
Proof.
  intros Hwf.
  by_shape raiden message w; try (rewrite Htype; reflexivity).
  destruct Hexn as [[-> Ht]|[_ Hill]]; [now rewrite Ht | congruence].
Qed.

(** X8. A mediation entry point is called only for a message whose class
    is exactly [LockedTransfer] and whose secrethash the registry answered
    not to know at block ["latest"]; it is called with the dispatched
    message itself, the target entry point when the target of the message
    is the node's address and the mediator's otherwise. *)
Theorem entry_point_only_for_unregistered_locked_transfer
    (raiden : RaidenService) (message : Message) (w : World) (ev : Event) :
  In ev (entry_point_calls
           (new_events w (snd (on_message raiden message w)))) ->
  type_of message = LockedTransfer
  /\ exists l tgt,
       lock message = Some l
       /\ target message = Some tgt
       /\ is_secret_registered (default_secret_registry raiden)
            (lock_secrethash l) "latest" = false
       /\ ev = if bytes_eqb tgt (address raiden)
               then TargetMediatedTransfer message
               else MediateMediatedTransfer message.
Proof.
  by_shape raiden message w; try by_answer; cbn; intros Hin;
    repeat (destruct Hin as [Hin|Hin]); try contradiction;
    subst ev; (split; [assumption|]); exists lk, tgt0;
    rewrite ?Hmine; auto.
Qed.

(** X9. A state change handed to the node is of the kind built for the
    exact class of the dispatched message, and no dispatch ever hands over
    a [ReceiveWithdrawRequest]. *)
Theorem state_change_kind_follows_the_message_class
    (raiden : RaidenService) (message : Message) (w : World)
    (state_change : StateChange) :
  In state_change
     (state_changes (new_events w (snd (on_message raiden message w)))) ->
  type_of message = source_class state_change
  /\ forall t c a s, state_change <> ReceiveWithdrawRequest t c a s.
Proof.
  by_shape raiden message w; try by_answer; cbn; intros Hin;
    repeat (destruct Hin as [Hin|Hin]); try contradiction;
    subst state_change; (split; [exact Htype | discriminate]).
Qed.

(** X10. A [ReceiveTransferRefundCancelRoute] is handed to the node only
    for a [RefundTransfer] of which the node is the initiator; its secret
    is the one drawn during the dispatch, and it carries routes only when
    the known secret is not [ABSENT_SECRET]. *)
Theorem cancel_route_only_from_an_initiator
    (raiden : RaidenService) (message : Message) (w : World)
    (routes : list Route) (transfer : LockedTransferSigned)
    (balance_proof : BalanceProof) (from : Address) (drawn : Secret) :
  In (ReceiveTransferRefundCancelRoute routes transfer balance_proof from drawn)
     (state_changes (new_events w (snd (on_message raiden message w)))) ->
  type_of message = RefundTransfer
  /\ refund_role raiden message = "initiator"
  /\ drawn = fst (random_secret_from (entropy w))
  /\ (refund_old_secret raiden message = ABSENT_SECRET -> routes = []).
Proof.
  by_shape raiden message w; try by_answer; cbn; intros Hin;
    repeat (destruct Hin as [Hin|Hin]); try contradiction;
    try discriminate Hin.
  unfold cancel_route in Hin. injection Hin as <- _ _ _ <-.
  repeat split; auto.
  intros ->. now rewrite bytes_eqb_refl.
Qed.

(** *** The handlers that only translate *)

(** X11. A [SecretRequest] is handed to the node as one
    [ReceiveSecretRequest] with the payment identifier, amount, expiration
    and secrethash of the message and the message's sender; the dispatch
    returns normally. *)
Theorem secretrequest_is_translated
    (raiden : RaidenService) (message : Message) (w : World)
    (p a e : Z) (h : SecretHash) :
  type_of message = SecretRequest ->
  body message = SecretRequestBody p a e h ->
  on_message raiden message w =
    (Returned tt,
     after w [Called "handle_message_secretrequest";
              HandleAndTrackStateChange
                (ReceiveSecretRequest p a e h (sender message))]).
Proof. intros Ht Hb. dispatch Ht. read_attrs Hb. exec. reflexivity. Qed.

(** X12. A [RevealSecret] is handed to the node as one
    [ReceiveSecretReveal] with the secret and the sender of the message. *)
Theorem revealsecret_is_translated
    (raiden : RaidenService) (message : Message) (w : World) (s : Secret) :
  type_of message = RevealSecret ->
  body message = RevealSecretBody s ->
  on_message raiden message w =
    (Returned tt,
     after w [Called "handle_message_revealsecret";
              HandleAndTrackStateChange
                (ReceiveSecretReveal s (sender message))]).
Proof. intros Ht Hb. dispatch Ht. read_attrs Hb. exec. reflexivity. Qed.

(** X13. A [Processed] is handed to the node as one [ReceiveProcessed]
    whose first field is the sender of the message and whose second is its
    message identifier. *)
Theorem processed_is_translated
    (raiden : RaidenService) (message : Message) (w : World) (i : Z) :
  type_of message = Processed ->
  body message = ProcessedBody i ->
  on_message raiden message w =
    (Returned tt,
     after w [Called "handle_message_processed";
              HandleAndTrackStateChange
                (ReceiveProcessed (sender message) i)]).
Proof. intros Ht Hb. dispatch Ht. read_attrs Hb. exec. reflexivity. Qed.

(** X14. A [Delivered] is handed to the node as one [ReceiveDelivered]
    whose message identifier is the identifier of the delivered message,
    with the sender of the message. *)
Theorem delivered_is_translated
    (raiden : RaidenService) (message : Message) (w : World) (i : Z) :
  type_of message = Delivered ->
  body message = DeliveredBody i ->
  on_message raiden message w =
    (Returned tt,
     after w [Called "handle_message_delivered";
              HandleAndTrackStateChange
                (ReceiveDelivered (sender message) i)]).
Proof. intros Ht Hb. dispatch Ht. read_attrs Hb. exec. reflexivity. Qed.

(** X15. Dispatching the same [SecretRequest], [RevealSecret], [Delivered]
    or [Processed] twice in a row returns normally and hands the node the
    same state change twice: the second dispatch is neither suppressed nor
    altered by the first. *)
Theorem translation_dispatched_twice_is_handed_over_twice
    (raiden : RaidenService) (message : Message) (w : World) :
  In (type_of message) [SecretRequest; RevealSecret; Delivered; Processed] ->
  well_formed message = true ->
  exists state_change,
    state_changes (new_events w (snd (on_message raiden message w))) =
      [state_change]
    /\ fst ((on_message raiden message ;; on_message raiden message) w) =
         Returned tt
    /\ state_changes
         (new_events w
            (snd ((on_message raiden message ;; on_message raiden message) w))) =
       [state_change; state_change].
Proof.
  intros Hin Hwf. unfold well_formed in Hwf. cbn [In] in Hin.
  destruct Hin as [Ht|[Ht|[Ht|[Ht|[]]]]]; symmetry in Ht; rewrite Ht in Hwf;
    destruct (body message) eqn:Hb; try discriminate Hwf;
    unfold bind; dispatch Ht; read_attrs Hb; exec;
    rewrite ?new_events_after; eexists; repeat split.
Qed.

(** *** Refunds, whatever the role *)

(** X16. A [RefundTransfer] always ends in exactly one state change handed
    to the node and no call of a mediation entry point, whatever the role
    and the known secret. The state change carries the transfer rebuilt
    from the message, that transfer's balance proof and the balance
    proof's sender, and its routes are either all the routes the routing
    service answered with or none: routes are never added or picked. *)
Theorem refund_always_hands_over_one_state_change
    (raiden : RaidenService) (message : Message) (w : World)
    (tna : TokenNetworkAddress) (l : Lock) (tgt : Address) (env : Envelope) :
  type_of message = RefundTransfer ->
  body message = RefundTransferBody tna l tgt env ->
  exists state_change routes,
    fst (on_message raiden message w) = Returned tt
    /\ state_changes (new_events w (snd (on_message raiden message w))) =
         [state_change]
    /\ entry_point_calls (new_events w (snd (on_message raiden message w))) = []
    /\ state_change_refund state_change =
         Some (refunded_transfer message,
               transfer_balance_proof (refunded_transfer message), routes)
    /\ state_change_sender state_change =
         balance_proof_sender
           (transfer_balance_proof (refunded_transfer message))
    /\ (routes = [] \/ routes = refund_routes raiden message tna).
Proof.
  intros Ht Hb.
  rewrite (refundtransfer_run raiden message w tna l tgt env Ht Hb).
  destruct (String.eqb _ "initiator"); cbn [fst snd]; unfold after_draw;
    rewrite ?new_events_after, ?new_events_app;
    do 2 eexists; repeat split; cbn; auto.
  destruct (bytes_eqb _ _); auto.
Qed.

End Coverage.

(** ** Every dispatch, on the scripted node *)

Section ScriptedCoverage.

#[local] Existing Instance Fake.domain.
#[local] Existing Instance Fake.collaborators.

(** The withdraw request raises, and leaves nothing behind. *)
Lemma failed_dispatch_witness :
  state_changes
    (new_events Fake.start
       (snd (on_message (Fake.node "mediator" [] []) Fake.withdraw_request
               Fake.start))) = []
  /\ entropy (snd (on_message (Fake.node "mediator" [] [])
                     Fake.withdraw_request Fake.start)) = 0%nat.
Proof.
  destruct (failed_dispatch_leaves_the_node_untouched
              (Fake.node "mediator" [] []) Fake.withdraw_request Fake.start
              TypeError eq_refl) as [_ [Hnone [_ Hentropy]]].
  split; [exact Hnone | exact Hentropy].
Defined.

Lemma registry_query_witness :
  In (IsSecretRegistered [] Fake.the_secrethash "latest")
     (new_events Fake.start
        (snd (on_message (Fake.node "mediator" [] [])
                (Fake.locked_transfer Fake.carol) Fake.start)))
  /\ type_of (Fake.locked_transfer Fake.carol) = LockedTransfer
  /\ lock (Fake.locked_transfer Fake.carol) = Some Fake.the_lock.
Proof.
  assert (Hin : In (IsSecretRegistered [] Fake.the_secrethash "latest")
                  (new_events Fake.start
                     (snd (on_message (Fake.node "mediator" [] [])
                             (Fake.locked_transfer Fake.carol) Fake.start))))
    by (vm_compute; auto).
  split; [exact Hin|].
  destruct (registry_is_queried_only_for_locked_transfers
              (Fake.node "mediator" [] []) (Fake.locked_transfer Fake.carol)
              Fake.start [] Fake.the_secrethash "latest" Hin)
    as [Ht _].
  split; [exact Ht | reflexivity].
Defined.

Lemma logged_message_witness :
  state_changes
    (new_events Fake.start
       (snd (on_message (Fake.node "mediator" [] []) Fake.ping Fake.start))) = [].
Proof.
  exact (proj1 (proj2 (a_logged_message_is_dropped
                         (Fake.node "mediator" [] []) Fake.ping Fake.start
                         eq_refl))).
Defined.

(** The unlock relayed by Bob yields a state change whose sender is Carol,
    the sender of the derived balance proof. *)
Lemma state_change_sender_witness :
  In (ReceiveUnlock 77 [x11] (Fake.signed_by Fake.carol) Fake.carol)
     (state_changes
        (new_events Fake.start
           (snd (on_message (Fake.node "target" [] []) Fake.relayed_unlock
                   Fake.start))))
  /\ sender_from_message Fake.relayed_unlock
       (ReceiveUnlock 77 [x11] (Fake.signed_by Fake.carol) Fake.carol).
Proof.
  assert (Hin : In (ReceiveUnlock 77 [x11] (Fake.signed_by Fake.carol)
                      Fake.carol)
                  (state_changes
                     (new_events Fake.start
                        (snd (on_message (Fake.node "target" [] [])
                                Fake.relayed_unlock Fake.start)))))
    by (vm_compute; auto).
  split; [exact Hin|].
  exact (state_change_sender_comes_from_the_message
           (Fake.node "target" [] []) Fake.relayed_unlock Fake.start
           (ReceiveUnlock 77 [x11] (Fake.signed_by Fake.carol) Fake.carol)
           Hin).
Defined.

Lemma well_formed_dispatch_witness :
  fst (on_message (Fake.node "mediator" [] []) Fake.withdraw_request
         Fake.start) = Raised TypeError
  /\ fst (on_message (Fake.node "mediator" [] []) Fake.secret_request
            Fake.start) = Returned tt.
Proof.
  split.
  - exact (well_formed_dispatch_raises_only_for_withdraw_requests
             (Fake.node "mediator" [] []) Fake.withdraw_request Fake.start
             eq_refl).
  - exact (well_formed_dispatch_raises_only_for_withdraw_requests
             (Fake.node "mediator" [] []) Fake.secret_request Fake.start
             eq_refl).
Defined.

(** A transfer towards Carol, on Alice's node, goes to the mediator. *)
Lemma entry_point_witness :
  In (MediateMediatedTransfer (Fake.locked_transfer Fake.carol))
     (entry_point_calls
        (new_events Fake.start
           (snd (on_message (Fake.node "mediator" [] [])
                   (Fake.locked_transfer Fake.carol) Fake.start))))
  /\ type_of (Fake.locked_transfer Fake.carol) = LockedTransfer.
Proof.
  assert (Hin : In (MediateMediatedTransfer (Fake.locked_transfer Fake.carol))
                  (entry_point_calls
                     (new_events Fake.start
                        (snd (on_message (Fake.node "mediator" [] [])
                                (Fake.locked_transfer Fake.carol) Fake.start)))))
    by (vm_compute; auto).
  split; [exact Hin|].
  exact (proj1 (entry_point_only_for_unregistered_locked_transfer
                  (Fake.node "mediator" [] [])
                  (Fake.locked_transfer Fake.carol) Fake.start
                  (MediateMediatedTransfer (Fake.locked_transfer Fake.carol))
                  Hin)).
Defined.

Lemma state_change_kind_witness :
  In (ReceiveProcessed Fake.bob 77)
     (state_changes
        (new_events Fake.start
           (snd (on_message (Fake.node "mediator" [] []) Fake.processed
                   Fake.start))))
  /\ type_of Fake.processed = source_class (ReceiveProcessed Fake.bob 77).
Proof.
  assert (Hin : In (ReceiveProcessed Fake.bob 77)
                  (state_changes
                     (new_events Fake.start
                        (snd (on_message (Fake.node "mediator" [] [])
                                Fake.processed Fake.start)))))
    by (vm_compute; auto).
  split; [exact Hin|].
  exact (proj1 (state_change_kind_follows_the_message_class
                  (Fake.node "mediator" [] []) Fake.processed Fake.start
                  (ReceiveProcessed Fake.bob 77) Hin)).
Defined.

Lemma cancel_route_witness :
  In (ReceiveTransferRefundCancelRoute Fake.two_routes
        (Fake.transfer_of Fake.refund) (Fake.signed_by Fake.bob) Fake.bob
        [x2a])
     (state_changes
        (new_events Fake.start
           (snd (on_message (Fake.node "initiator" [x01] []) Fake.refund
                   Fake.start))))
  /\ refund_role (Fake.node "initiator" [x01] []) Fake.refund = "initiator".
Proof.
  assert (Hin : In (ReceiveTransferRefundCancelRoute Fake.two_routes
                      (Fake.transfer_of Fake.refund) (Fake.signed_by Fake.bob)
                      Fake.bob [x2a])
                  (state_changes
                     (new_events Fake.start
                        (snd (on_message (Fake.node "initiator" [x01] [])
                                Fake.refund Fake.start)))))
    by (vm_compute; auto).
  split; [exact Hin|].
  exact (proj1 (proj2 (cancel_route_only_from_an_initiator
                         (Fake.node "initiator" [x01] []) Fake.refund
                         Fake.start Fake.two_routes
                         (Fake.transfer_of Fake.refund)
                         (Fake.signed_by Fake.bob) Fake.bob [x2a] Hin))).
Defined.

Lemma secretrequest_witness :
  on_message (Fake.node "initiator" [x01] []) Fake.secret_request Fake.start =
    (Returned tt,
     {| entropy := 0%nat;
        trace :=
          [Called "handle_message_secretrequest";
           HandleAndTrackStateChange
             (ReceiveSecretRequest 9 5 100 Fake.the_secrethash Fake.dave)] |}).
Proof.
  exact (secretrequest_is_translated (Fake.node "initiator" [x01] [])
           Fake.secret_request Fake.start 9%Z 5%Z 100%Z Fake.the_secrethash
           eq_refl eq_refl).
Defined.

Lemma revealsecret_witness :
  on_message (Fake.node "initiator" [x01] []) Fake.reveal_secret Fake.start =
    (Returned tt,
     {| entropy := 0%nat;
        trace :=
          [Called "handle_message_revealsecret";
           HandleAndTrackStateChange (ReceiveSecretReveal [x11] Fake.dave)] |}).
Proof.
  exact (revealsecret_is_translated (Fake.node "initiator" [x01] [])
           Fake.reveal_secret Fake.start [x11] eq_refl eq_refl).
Defined.

Lemma processed_witness :
  on_message (Fake.node "mediator" [] []) Fake.processed Fake.start =
    (Returned tt,
     {| entropy := 0%nat;
        trace :=
          [Called "handle_message_processed";
           HandleAndTrackStateChange (ReceiveProcessed Fake.bob 77)] |}).
Proof.
  exact (processed_is_translated (Fake.node "mediator" [] [])
           Fake.processed Fake.start 77%Z eq_refl eq_refl).
Defined.

Lemma delivered_witness :
  on_message (Fake.node "mediator" [] []) Fake.delivered Fake.start =
    (Returned tt,
     {| entropy := 0%nat;
        trace :=
          [Called "handle_message_delivered";
           HandleAndTrackStateChange (ReceiveDelivered Fake.bob 77)] |}).
Proof.
  exact (delivered_is_translated (Fake.node "mediator" [] [])
           Fake.delivered Fake.start 77%Z eq_refl eq_refl).
Defined.

Lemma translation_twice_witness :
  exists state_change,
    state_changes
      (new_events Fake.start
         (snd ((on_message (Fake.node "mediator" [] []) Fake.delivered ;;
                on_message (Fake.node "mediator" [] []) Fake.delivered)
                 Fake.start))) =
      [state_change; state_change].
Proof.
  destruct (translation_dispatched_twice_is_handed_over_twice
              (Fake.node "mediator" [] []) Fake.delivered Fake.start
              (or_intror (or_intror (or_introl eq_refl))) eq_refl)
    as [state_change [_ [_ Htwice]]].
  exists state_change. exact Htwice.
Defined.

Lemma refund_one_state_change_witness :
  exists state_change,
    state_changes
      (new_events Fake.start
         (snd (on_message (Fake.node "target" [] []) Fake.refund
                 Fake.start))) = [state_change]
    /\ state_change_sender state_change = Fake.bob.
Proof.
  destruct (refund_always_hands_over_one_state_change
              (Fake.node "target" [] []) Fake.refund Fake.start
              [x03] Fake.the_lock Fake.dave Fake.bob eq_refl eq_refl)
    as [state_change [routes [_ [Hone [_ [_ [Hsender _]]]]]]].
  exists state_change. split; [exact Hone | exact Hsender].
Defined.

End ScriptedCoverage.
